(** * mc_discord: a Discord -> Minecraft RCON link

    A shallow embedding of [src/mc_discord.py] and the properties of its
    command dispatcher, permission resolver and RCON bridge.

    Conventions of the embedding.
    - A Python [str] is a [string]; [str.format] with [{:s}] on a [str] is
      the identity, so formatted messages are concatenations.
    - A Python [dict] is an insertion-ordered association list with unique
      keys ([PyDict]): [d[k] = v] replaces in place or appends, [values()]
      enumerates in insertion order.
    - A call that may raise returns a [Result]; methods that read or write
      the object or the outside world are state transformers [M A].
    - A coroutine is run to completion: [await] is sequencing.
    - There is one [MCLink] object in the process: the containers declared
      at class level are its own, and the built-in [help] is bound to it.
    - What the module imports ([socket], [mcrcon], [discord], the command
      handlers registered by client code) is a parameter of the model. *)

From Stdlib Require Import ZArith List String Ascii Bool Lia DecimalString.
Import ListNotations.

Local Open Scope string_scope.
Local Open Scope Z_scope.

(** ** class Permission(Enum) *)

Inductive Permission : Type :=
| Default
| Moderator
| Admin
| Owner.

Definition value (p : Permission) : Z :=
  match p with
  | Default => 0
  | Moderator => 25
  | Admin => 50
  | Owner => 900
  end.

(** [Permission.__lt__] and [Permission.__le__]; both operands are members of
    the class, so the [NotImplemented] branch is not reachable here. *)
Definition Permission_lt (self other : Permission) : bool :=
  value self <? value other.

Definition Permission_le (self other : Permission) : bool :=
  value self <=? value other.

(** [a >= b] has no [__ge__] on the class: Python evaluates the reflected
    [b.__le__(a)]. *)
Definition Permission_ge (a b : Permission) : bool := Permission_le b a.

(** The builtin [max(a, b)] keeps [a] unless [b > a]; [b > a] has no
    [__gt__] on the class and is evaluated as the reflected [a.__lt__(b)]. *)
Definition py_max (a b : Permission) : Permission :=
  if Permission_lt a b then b else a.

(** ** Strings *)

Definition nl : string := String (ascii_of_nat 10) EmptyString.
Definition space : ascii := " "%char.

(** [s.split(sep)] for a one-character separator: every occurrence of [sep]
    ends a token, empty tokens are kept, and the result is never empty. *)
Fixpoint py_split (sep : ascii) (s : string) : list string :=
  match s with
  | EmptyString => [EmptyString]
  | String c rest =>
      if Ascii.eqb c sep then EmptyString :: py_split sep rest
      else match py_split sep rest with
           | tok :: toks => String c tok :: toks
           | [] => [String c EmptyString]
           end
  end.

(** [sep.join(toks)] *)
Fixpoint py_join (sep : string) (toks : list string) : string :=
  match toks with
  | [] => EmptyString
  | [t] => t
  | t :: rest => t ++ sep ++ py_join sep rest
  end.

Fixpoint contains_char (c : ascii) (s : string) : bool :=
  match s with
  | EmptyString => false
  | String d rest => Ascii.eqb d c || contains_char c rest
  end.

(** [s.startswith(c)] and [s[1:]] *)
Definition startswith (c : ascii) (s : string) : bool :=
  match s with
  | String d _ => Ascii.eqb d c
  | EmptyString => false
  end.

Definition drop_first (s : string) : string :=
  match s with
  | String _ rest => rest
  | EmptyString => EmptyString
  end.

(** [str(n)] for an [int]. *)
Definition str_of_int (n : Z) : string := NilZero.string_of_int (Z.to_int n).

(** ** Python dictionaries *)

Module PyDict.
Section Dict.
Context {K V : Type}.
Variable eqb : K -> K -> bool.

Definition dict : Type := list (K * V).

Fixpoint get (k : K) (d : dict) : option V :=
  match d with
  | [] => None
  | (k', v) :: rest => if eqb k' k then Some v else get k rest
  end.

(** [k in d] *)
Definition contains (k : K) (d : dict) : bool :=
  match get k d with Some _ => true | None => false end.

(** [d[k] = v] *)
Fixpoint set (k : K) (v : V) (d : dict) : dict :=
  match d with
  | [] => [(k, v)]
  | (k', v') :: rest =>
      if eqb k' k then (k', v) :: rest else (k', v') :: set k v rest
  end.

Definition keys (d : dict) : list K := map fst d.
Definition values (d : dict) : list V := map snd d.
End Dict.
End PyDict.

(** ** Exceptions and results *)

Inductive ExcClass : Type :=
| AttributeError
| KeyError
| IndexError
| OtherException (name : string)   (* any other subclass of Exception *)
| NonException (name : string).    (* BaseException outside Exception *)

Record PyExc : Type := mkExc { exc_class : ExcClass; exc_str : string }.

(** [isinstance(e, Exception)], what [except Exception] tests. *)
Definition is_Exception (e : PyExc) : bool :=
  match exc_class e with
  | NonException _ => false
  | _ => true
  end.

Inductive Result (A : Type) : Type :=
| Return (a : A)
| Raise (e : PyExc).
Arguments Return {A} a.
Arguments Raise {A} e.

(** ** The discord objects the module reads *)

Record Role : Type := mkRole { role_id : Z }.

(** [user_str] is [str(user)]. *)
Record User : Type := mkUser { user_id : Z; user_bot : bool; user_str : string }.

Record Member : Type := mkMember { member_id : Z; roles : list Role }.

Record Guild : Type := mkGuild { guild_id : Z; members : list Member }.

(** A key of [_role_permissions].  [register_role] stores [int] role ids;
    the resolver also tests [Role] objects for membership.  A [discord.Role]
    compares equal only to another [Role] with the same id, never to an
    [int]. *)
Inductive PyKey : Type :=
| KInt (n : Z)
| KRole (r : Role).

Definition PyKey_eqb (a b : PyKey) : bool :=
  match a, b with
  | KInt m, KInt n => m =? n
  | KRole r, KRole s => role_id r =? role_id s
  | _, _ => false
  end.

(** [member == user] for discord users and members: same id. *)
Definition Member_eq_User (m : Member) (u : User) : bool :=
  member_id m =? user_id u.

(** ** class Command *)

(** A [Callable] stored in a command: the bound method [self.help], or a
    handler of the client code, referred to by its index. *)
Inductive Callable : Type :=
| BoundHelp
| Handler (n : nat).

Record Command : Type := mkCommand {
  name : string;
  permission : Permission;
  func : Callable;
  help : string
}.

(** ** class MCLink *)

Module MCLink.

(** [_DiscordLink]: the client object, with the roster the resolver reads.
    [user] is the account the client is logged in as. *)
Record DiscordLink : Type := mkLink {
  link_DEBUG : bool;
  user : option User;
  guilds : list Guild
}.

(** [client.get_guild(id)]: the guild with that id, or [None]. *)
Definition get_guild (l : DiscordLink) (id : option Z) : option Guild :=
  match id with
  | Some i => find (fun g => guild_id g =? i) (guilds l)
  | None => None
  end.

(** [members.index(user)]: the first position holding an equal element. *)
Fixpoint py_index (ms : list Member) (u : User) : option nat :=
  match ms with
  | [] => None
  | m :: rest =>
      if Member_eq_User m u then Some O
      else option_map S (py_index rest u)
  end.

Record Message : Type := mkMessage {
  author : User;
  content : string;
  channel : Z
}.

Definition help_header : string :=
  "Hello! I am a Discord -> Minecraft: Java Edition server link!" ++ nl ++
  "Here are the commands available to you:" ++ nl ++ nl.

(** The line [help] appends for a command. *)
Definition help_line (x : Command) : string :=
  "* `" ++ name x ++ "` - " ++ help x ++ nl.

Definition no_attribute (attr : string) : PyExc :=
  mkExc AttributeError
        ("'NoneType' object has no attribute '" ++ attr ++ "'").

Section Bridge.

(** The socket handle type and the world outside the process (the RCON
    peer, whatever the handlers reach). *)
Variable Socket : Type.
Variable Env : Type.

(** The attributes of an [MCLink] object. *)
Record t : Type := mkMCLink {
  _DEBUG : bool;
  _rcon_socket : option Socket;
  _link : option DiscordLink;
  _guild_id : option Z;
  _bot_admins : list Z;
  _commands : PyDict.dict (K := string) (V := Command);
  _role_permissions : PyDict.dict (K := PyKey) (V := Permission)
}.

(** The object together with what it writes to: standard output, the
    messages sent to channels (oldest first), and the environment. *)
Record State : Type := mkState {
  self : t;
  stdout : list string;
  sent : list (Z * string);
  env : Env
}.

Definition with_env (e : Env) (s : State) : State :=
  mkState (self s) (stdout s) (sent s) e.

(** *** The state and exception monad *)

Definition M (A : Type) : Type := State -> Result A * State.

Definition ret {A} (a : A) : M A := fun s => (Return a, s).
Definition raise {A} (e : PyExc) : M A := fun s => (Raise e, s).
Definition bind {A B} (m : M A) (k : A -> M B) : M B :=
  fun s =>
    match m s with
    | (Return a, s') => k a s'
    | (Raise e, s') => (Raise e, s')
    end.
Definition gets {A} (f : t -> A) : M A := fun s => (Return (f (self s)), s).

(** [try: body except Exception as e: handler e] *)
Definition try_except {A} (body : M A) (handler : PyExc -> M A) : M A :=
  fun s =>
    match body s with
    | (Return a, s') => (Return a, s')
    | (Raise e, s') =>
        if is_Exception e then handler e s' else (Raise e, s')
    end.

Notation "x <- m ;; k" := (bind m (fun x => k))
  (at level 61, m at next level, right associativity).
Notation "m ;;; k" := (bind m (fun _ => k))
  (at level 61, right associativity).

(** [print(message)] *)
Definition print (message : string) : M unit :=
  fun s => (Return tt,
            mkState (self s) (stdout s ++ [message]) (sent s) (env s)).

(** [await channel.send(text)] *)
Definition send (ch : Z) (text : string) : M unit :=
  fun s => (Return tt,
            mkState (self s) (stdout s) (sent s ++ [(ch, text)]) (env s)).

(** *** What the module imports *)

(** [sock.close()] and [mcrcon.command(sock, command)], acting on the
    environment; closing a socket returns normally, a command may raise.
    The handlers of the client code, by index, called as
    [func(link=self, args=args, user=user)]: each returns [None] or a
    [(success, message)] pair, or raises, and may change anything. *)
Variable socket_close : Socket -> Env -> Env.
Variable mcrcon_command : Socket -> string -> Env -> Result string * Env.
Variable handlers :
  nat -> list string -> User -> M (option (bool * string)).

(** *** Methods *)

Definition is_connected (o : t) : bool :=
  match _rcon_socket o with
  | Some _ => true
  | None => false
  end.

Definition close : M unit :=
  fun s =>
    if is_connected (self s) then
      match _rcon_socket (self s) with
      | Some sock =>
          let o := self s in
          (Return tt,
           mkState (mkMCLink (_DEBUG o) None (_link o) (_guild_id o)
                             (_bot_admins o) (_commands o)
                             (_role_permissions o))
                   (stdout s) (sent s) (socket_close sock (env s)))
      | None => (Raise (no_attribute "close"), s)
      end
    else (Return tt, s).

Definition log (message : string) : M unit := print message.

Definition register_admin (user_id : Z) (o : t) : t :=
  mkMCLink (_DEBUG o) (_rcon_socket o) (_link o) (_guild_id o)
           (_bot_admins o ++ [user_id]) (_commands o) (_role_permissions o).

Definition register_role (role_id : Z) (level : Permission) (o : t) : t :=
  mkMCLink (_DEBUG o) (_rcon_socket o) (_link o) (_guild_id o)
           (_bot_admins o) (_commands o)
           (PyDict.set PyKey_eqb (KInt role_id) level (_role_permissions o)).

Definition register_command (name : string) (level : Permission)
           (func : Callable) (help : string) (o : t) : t :=
  mkMCLink (_DEBUG o) (_rcon_socket o) (_link o) (_guild_id o)
           (_bot_admins o)
           (PyDict.set String.eqb name (mkCommand name level func help)
                       (_commands o))
           (_role_permissions o).

(** The class attributes, then [__init__]. *)
Definition class_defaults : t :=
  mkMCLink false None None None [] [] [].

Definition init : t :=
  register_command "help" Default BoundHelp "Show this help menu"
                   class_defaults.

(** The loop of [get_member_permission_level] over [member.roles]. *)
Fixpoint highest_role_permission (o : t) (rs : list Role)
         (permission_level : Permission) : Result Permission :=
  match rs with
  | [] => Return permission_level
  | role :: rest =>
      if PyDict.contains PyKey_eqb (KRole role) (_role_permissions o) then
        match PyDict.get PyKey_eqb (KInt (role_id role))
                         (_role_permissions o) with
        | Some level =>
            highest_role_permission o rest (py_max permission_level level)
        | None => Raise (mkExc KeyError (str_of_int (role_id role)))
        end
      else highest_role_permission o rest permission_level
  end.

Definition get_member_permission_level (o : t) (user : User)
  : Result Permission :=
  match _link o with
  | None => Raise (no_attribute "get_guild")
  | Some l =>
      match get_guild l (_guild_id o) with
      | None => Raise (no_attribute "members")
      | Some guild =>
          match py_index (members guild) user with
          | None => Return Default                     (* ValueError *)
          | Some member_index =>
              match nth_error (members guild) member_index with
              | None => Raise (mkExc IndexError "list index out of range")
              | Some member =>
                  highest_role_permission o (roles member) Default
              end
          end
      end
  end.

Definition reads {A} (f : t -> Result A) : M A := fun s => (f (self s), s).

(** The built-in command.  It is registered as the bound method
    [self.help], so [self] and [link] are the same object. *)
Definition help (args : list string) (user : User)
  : M (option (bool * string)) :=
  let message := help_header in
  user_permission <- reads (fun o => get_member_permission_level o user) ;;
  cmds <- gets _commands ;;
  let message :=
    fold_left
      (fun message x =>
         if Permission_ge user_permission (permission x)
         then message ++ help_line x
         else message)
      (PyDict.values cmds) message in
  ret (Some (true, message)).

(** [await cmd.func(link=self, args=cmd_args, user=user)] *)
Definition apply_func (f : Callable) (args : list string) (user : User)
  : M (option (bool * string)) :=
  match f with
  | BoundHelp => help args user
  | Handler n => handlers n args user
  end.

Definition call (input : string) (user : User) : M (bool * string) :=
  match py_split space input with
  | [] => raise (mkExc IndexError "list index out of range")
  | cmd_name :: cmd_args =>
      cmds <- gets _commands ;;
      match PyDict.get String.eqb cmd_name cmds with
      | None =>                                         (* KeyError *)
          ret (false, "Error: Unknown command '" ++ cmd_name ++ "'")
      | Some cmd =>
          level <- reads (fun o => get_member_permission_level o user) ;;
          if Permission_lt level (permission cmd) then
            ret (false, "You don't have permission for that command.")
          else
            debug <- gets _DEBUG ;;
            (if debug then log ("Running '" ++ input ++ "'") else ret tt) ;;;
            response <- apply_func (func cmd) cmd_args user ;;
            match response with
            | None => ret (true, "No response for command")
            | Some r => ret r
            end
      end
  end.

Definition execute (command : string) : M string :=
  fun s =>
    if negb (is_connected (self s)) then
      (Return "RCON is not connected", s)
    else
      match _rcon_socket (self s) with
      | Some sock =>
          let (r, e) := mcrcon_command sock command (env s) in
          (r, with_env e s)
      | None => (Raise (no_attribute "send"), s)
      end.

(** *** _DiscordLink.on_message

    [this] is the client object; the state is that of its [_parent].
    [traceback.print_tb] writes to standard error, which is not part of
    the state. *)
Definition fault_notice (input : string) (e : PyExc) : string :=
  ":exclamation: An error occurred while trying to run the command '"
    ++ input ++ "'." ++ nl ++ "Please notify the development team."
    ++ nl ++ nl ++ "Exception: " ++ exc_str e.

Definition author_is_self (this : DiscordLink) (message : Message) : bool :=
  match user this with
  | Some u => user_id (author message) =? user_id u
  | None => false
  end.

Definition on_message (this : DiscordLink) (message : Message) : M unit :=
  (if link_DEBUG this
   then print ("Message from " ++ user_str (author message) ++ ": "
                 ++ content message)
   else ret tt) ;;;
  if author_is_self this message || user_bot (author message) then ret tt
  else if startswith "!" (content message) then
    try_except
      (response <- call (drop_first (content message)) (author message) ;;
       send (channel message)
            ((if negb (fst response) then "[FAIL] " else "")
               ++ snd response))
      (fun e =>
         let response := fault_notice (drop_first (content message)) e in
         print response ;;;
         send (channel message) response)
  else ret tt.

(** The state in which [call] invokes the handler: the one it was
    entered in, after the line logged when [_DEBUG] is set. *)
Definition debug_logged (input : string) (s : State) : State :=
  if _DEBUG (self s)
  then mkState (self s) (stdout s ++ ["Running '" ++ input ++ "'"])
               (sent s) (env s)
  else s.

(** The state in which [on_message] looks at the message: after the line
    printed when the client's [_DEBUG] is set. *)
Definition traced (this : DiscordLink) (message : Message) (s : State)
  : State :=
  if link_DEBUG this
  then mkState (self s)
               (stdout s ++ ["Message from " ++ user_str (author message)
                               ++ ": " ++ content message])
               (sent s) (env s)
  else s.

(** The state after [on_message] has reported a fault: the notice is
    printed, then sent to the channel of the message. *)
Definition fault_reported (message : Message) (notice : string) (s : State)
  : State :=
  mkState (self s) (stdout s ++ [notice])
          (sent s ++ [(channel message, notice)]) (env s).

(** *** connect

    What [connect] calls outside the module: [socket.socket(...)],
    [sock.connect((host, port))], [mcrcon.login(sock, password)] and the
    client's [run(token)], which drives the event handlers until the
    client stops.  A new client is not logged in and knows no guild. *)
Variable socket_new : Env -> Result Socket * Env.
Variable socket_connect : Socket -> string -> Z -> Env -> Result unit * Env.
Variable mcrcon_login : Socket -> string -> Env -> Result bool * Env.
Variable client_run : string -> M unit.

Definition on_env {A} (f : Env -> Result A * Env) : M A :=
  fun s => let (r, e) := f (env s) in (r, with_env e s).

Definition update (f : t -> t) : M unit :=
  fun s => (Return tt, mkState (f (self s)) (stdout s) (sent s) (env s)).

Definition set_guild_id (guild_id : Z) (o : t) : t :=
  mkMCLink (_DEBUG o) (_rcon_socket o) (_link o) (Some guild_id)
           (_bot_admins o) (_commands o) (_role_permissions o).

Definition set_rcon_socket (sock : option Socket) (o : t) : t :=
  mkMCLink (_DEBUG o) sock (_link o) (_guild_id o)
           (_bot_admins o) (_commands o) (_role_permissions o).

Definition set_link (l : DiscordLink) (o : t) : t :=
  mkMCLink (_DEBUG o) (_rcon_socket o) (Some l) (_guild_id o)
           (_bot_admins o) (_commands o) (_role_permissions o).

Definition new_client : DiscordLink := mkLink false None [].

Definition incorrect_password : PyExc :=
  mkExc (OtherException "ConnectionError") "Incorrect rcon password".

Definition connect (bot_token : string) (guild_id : Z) (rcon_host : string)
           (rcon_port : Z) (rcon_password : string) : M unit :=
  update (set_guild_id guild_id) ;;;
  sock <- on_env socket_new ;;
  update (set_rcon_socket (Some sock)) ;;;
  try_except
    (on_env (socket_connect sock rcon_host rcon_port) ;;;
     result <- on_env (mcrcon_login sock rcon_password) ;;
     if negb result then
       print "Incorrect rcon password" ;;;
       close ;;;
       raise incorrect_password
     else ret tt)
    (fun e =>
       print "Failed to connect to the Minecraft RCON server" ;;;
       print (exc_str e) ;;;
       close ;;;
       raise e) ;;;
  update (set_link new_client) ;;;
  client_run bot_token.

End Bridge.

Arguments mkMCLink {Socket}.
Arguments mkState {Socket Env}.
Arguments _DEBUG {Socket}.
Arguments _rcon_socket {Socket}.
Arguments _link {Socket}.
Arguments _guild_id {Socket}.
Arguments _bot_admins {Socket}.
Arguments _commands {Socket}.
Arguments _role_permissions {Socket}.
Arguments self {Socket Env}.
Arguments stdout {Socket Env}.
Arguments sent {Socket Env}.
Arguments env {Socket Env}.
Arguments is_connected {Socket}.
Arguments close {Socket Env}.
Arguments register_admin {Socket}.
Arguments register_role {Socket}.
Arguments register_command {Socket}.
Arguments get_member_permission_level {Socket}.
Arguments highest_role_permission {Socket}.
Arguments help {Socket Env}.
Arguments apply_func {Socket Env}.
Arguments call {Socket Env}.
Arguments execute {Socket Env}.
Arguments on_message {Socket Env}.
Arguments debug_logged {Socket Env}.
Arguments traced {Socket Env}.
Arguments fault_reported {Socket Env}.
Arguments print {Socket Env}.
Arguments send {Socket Env}.
Arguments fault_notice : simpl never.
Arguments set_guild_id {Socket}.
Arguments set_rcon_socket {Socket}.
Arguments set_link {Socket}.
Arguments connect {Socket Env}.

End MCLink.

(** ** The commands [help] lists *)

Fixpoint help_lines (xs : list Command) : string :=
  match xs with
  | [] => EmptyString
  | x :: rest => MCLink.help_line x ++ help_lines rest
  end.

(** The registered commands a user of level [level] may run, in the order
    of the registry. *)
Definition available (level : Permission) (cmds : list Command)
  : list Command :=
  filter (fun x => value (permission x) <=? value level) cmds.

(** The text of a help message, character by character: the greeting,
    then for each listed command the line [* `name` - help] and a line
    feed. *)
Definition line_feed : string := String "010" EmptyString.

Definition greeting : string :=
  "Hello! I am a Discord -> Minecraft: Java Edition server link!"
    ++ line_feed ++ "Here are the commands available to you:"
    ++ line_feed ++ line_feed.

Definition listing_line (x : Command) : string :=
  "* `" ++ name x ++ "` - " ++ help x ++ line_feed.

Fixpoint listing (xs : list Command) : string :=
  match xs with
  | [] => EmptyString
  | x :: rest => listing_line x ++ listing rest
  end.

(** ** The specification's reading of two operations

    These two definitions follow the words of the specification, not the
    source; the theorems compare the source with them. *)

(** "Split on whitespace": every whitespace character separates tokens. *)
Definition is_whitespace (c : ascii) : bool :=
  let n := nat_of_ascii c in
  (Nat.eqb n 32 || (Nat.leb 9 n && Nat.leb n 13))%bool.

Fixpoint spec_split_whitespace (s : string) : list string :=
  match s with
  | EmptyString => [EmptyString]
  | String c rest =>
      if is_whitespace c then EmptyString :: spec_split_whitespace rest
      else match spec_split_whitespace rest with
           | tok :: toks => String c tok :: toks
           | [] => [String c EmptyString]
           end
  end.

(** "The maximum over the levels mapped to the roles the user holds,
    together with Default". *)
Fixpoint spec_resolve (role_permissions : PyDict.dict (K := PyKey))
         (rs : list Role) : Permission :=
  match rs with
  | [] => Default
  | role :: rest =>
      let others := spec_resolve role_permissions rest in
      match PyDict.get PyKey_eqb (KInt (role_id role)) role_permissions with
      | Some level => if value others <? value level then level else others
      | None => others
      end
  end.

(** [role_permissions] as [register_role] builds it: keyed by [int]. *)
Definition int_keyed (d : PyDict.dict (K := PyKey) (V := Permission)) : Prop :=
  Forall (fun k => exists n, k = KInt n) (PyDict.keys d).

(** The command table as [register_command] builds it: one entry per name,
    each command stored under its own name. *)
Definition registry_wf (d : PyDict.dict (K := string) (V := Command)) : Prop :=
  NoDup (PyDict.keys d) /\ Forall (fun kv => name (snd kv) = fst kv) d.

(** The state with another object in place of [self]. *)
Definition with_object {Socket Env : Type} (o : MCLink.t Socket)
           (s : MCLink.State Socket Env) : MCLink.State Socket Env :=
  MCLink.mkState o (MCLink.stdout s) (MCLink.sent s) (MCLink.env s).

(** ** A small deployment, for concrete runs

    One guild with two members; handlers that fail, stay silent, or echo
    their arguments, each counting its runs in the environment. *)

Module Fixture.

Definition Socket : Type := nat.
Definition Env : Type := nat.

Definition socket_close (sock : Socket) (e : Env) : Env := e.

Definition mcrcon_command (sock : Socket) (command : string) (e : Env)
  : Result string * Env :=
  (Return ("There are 0 of a max 20 players online"), S e).

Definition ran (s : MCLink.State Socket Env) : MCLink.State Socket Env :=
  MCLink.mkState (MCLink.self s) (MCLink.stdout s) (MCLink.sent s)
                 (S (MCLink.env s)).

Definition boom : PyExc := mkExc (OtherException "RuntimeError") "boom".

Definition handlers (n : nat) (args : list string) (user : User)
  : MCLink.M Socket Env (option (bool * string)) :=
  match n with
  | O => fun s => (Raise boom, ran s)
  | S O => fun s => (Return None, ran s)
  | _ => fun s => (Return (Some (true, py_join "," args)), ran s)
  end.

Definition alice : User := mkUser 10 false "alice#0001".
Definition bob : User := mkUser 11 false "bob#0002".
Definition bot : User := mkUser 1 true "link#0000".

Definition roster : Guild :=
  mkGuild 1 [mkMember 10 [mkRole 5]; mkMember 11 []].

Definition client : MCLink.DiscordLink :=
  MCLink.mkLink false (Some bot) [roster].

(** The object after [__init__], registration of four commands and of
    role 5 as [Admin], with the client attached to guild 1 and no RCON
    socket. *)
Definition link : MCLink.t Socket :=
  MCLink.register_role 5 Admin
    (MCLink.register_command "save" Default (Handler 1) "Save the world"
      (MCLink.register_command "echo" Default (Handler 2) "Repeat"
        (MCLink.register_command "stop" Admin (Handler 1) "Stop the server"
          (MCLink.register_command "boom" Default (Handler 0) "Fail"
            (MCLink.mkMCLink false None (Some client) (Some 1) []
               (MCLink._commands (MCLink.init Socket)) []))))).

Definition st0 : MCLink.State Socket Env := MCLink.mkState link [] [] O.

(** The same object holding an open socket. *)
Definition linked : MCLink.t Socket :=
  MCLink.mkMCLink false (Some 3%nat) (Some client) (Some 1) []
                  (MCLink._commands link) (MCLink._role_permissions link).

Definition st1 : MCLink.State Socket Env := MCLink.mkState linked [] [] O.

(** The object had the registry been filled with the [Role] object itself
    as the key, against the signature of [register_role]. *)
Definition role_keyed : MCLink.t Socket :=
  MCLink.mkMCLink false None (Some client) (Some 1) []
                  (MCLink._commands link) [(KRole (mkRole 5), Admin)].

Definition stop_cmd : Command :=
  mkCommand "stop" Admin (Handler 1) "Stop the server".
Definition echo_cmd : Command := mkCommand "echo" Default (Handler 2) "Repeat".
Definition save_cmd : Command :=
  mkCommand "save" Default (Handler 1) "Save the world".
Definition help_cmd : Command :=
  mkCommand "help" Default BoundHelp "Show this help menu".

Definition tab : string := String (ascii_of_nat 9) EmptyString.

(** An RCON server on localhost with password "hunter2"; the client stops
    at once. *)
Definition refused : PyExc :=
  mkExc (OtherException "ConnectionRefusedError")
        "[Errno 111] Connection refused".

Definition socket_new (e : Env) : Result Socket * Env := (Return 7%nat, e).

Definition socket_connect (sock : Socket) (host : string) (port : Z) (e : Env)
  : Result unit * Env :=
  if String.eqb host "localhost" then (Return tt, e) else (Raise refused, e).

Definition mcrcon_login (sock : Socket) (password : string) (e : Env)
  : Result bool * Env :=
  (Return (String.eqb password "hunter2"), e).

Definition client_run (token : string) : MCLink.M Socket Env unit :=
  fun s => (Return tt, ran s).

(** A fresh object, as [__init__] leaves it. *)
Definition fresh : MCLink.State Socket Env :=
  MCLink.mkState (MCLink.init Socket) [] [] O.

Definition carol : User := mkUser 12 false "carol#0003".

End Fixture.

(** * Properties *)

(** ** Splitting and joining *)

Lemma py_split_nonempty (sep : ascii) (s : string) : py_split sep s <> [].
Proof.
  destruct s as [|c rest]; simpl; [discriminate|].
  destruct (Ascii.eqb c sep); [discriminate|].
  destruct (py_split sep rest); discriminate.
Qed.

Lemma py_join_cons (sep t : string) (u : string) (rest : list string) :
  py_join sep (t :: u :: rest) = t ++ sep ++ py_join sep (u :: rest).
Proof. reflexivity. Qed.

Lemma py_split_join (sep : ascii) (s : string) :
  py_join (String sep EmptyString) (py_split sep s) = s.
Proof.
  induction s as [|c rest IH]; [reflexivity|].
  simpl py_split. destruct (Ascii.eqb_spec c sep) as [->|Hne].
  - pose proof (py_split_nonempty sep rest) as Hn.
    destruct (py_split sep rest) as [|u toks]; [contradiction|].
    rewrite py_join_cons, IH. reflexivity.
  - pose proof (py_split_nonempty sep rest) as Hn.
    destruct (py_split sep rest) as [|u toks]; [contradiction|].
    destruct toks as [|v toks].
    + simpl in *. now rewrite IH.
    + rewrite py_join_cons in IH |- *. rewrite <- IH. reflexivity.
Qed.

Lemma py_split_no_sep (sep : ascii) (s : string) :
  Forall (fun tok => contains_char sep tok = false) (py_split sep s).
Proof.
  induction s as [|c rest IH]; simpl.
  - repeat constructor.
  - destruct (Ascii.eqb c sep) eqn:E.
    + constructor; [reflexivity | exact IH].
    + destruct (py_split sep rest) as [|u toks].
      * repeat constructor. simpl. now rewrite E.
      * inversion IH; subst. constructor; [|assumption].
        simpl. rewrite E. assumption.
Qed.

Lemma string_app_assoc (a b c : string) : (a ++ b) ++ c = a ++ b ++ c.
Proof. induction a as [|x a IH]; simpl; [reflexivity | now rewrite IH]. Qed.

Lemma string_app_nil_r (a : string) : a ++ EmptyString = a.
Proof. induction a as [|x a IH]; simpl; [reflexivity | now rewrite IH]. Qed.

(** ** Dictionaries keyed by role id *)

Lemma int_keyed_no_role (d : PyDict.dict) (r : Role) :
  int_keyed d -> PyDict.contains PyKey_eqb (KRole r) d = false.
Proof.
  unfold int_keyed, PyDict.contains.
  induction d as [|[k v] rest IH]; simpl; intros H; [reflexivity|].
  inversion H as [|? ? [n ->] Hrest]; subst. simpl.
  apply IH, Hrest.
Qed.

Lemma int_keyed_set (d : PyDict.dict) (n : Z) (level : Permission) :
  int_keyed d -> int_keyed (PyDict.set PyKey_eqb (KInt n) level d).
Proof.
  unfold int_keyed.
  induction d as [|[k v] rest IH]; simpl; intros H.
  - repeat constructor. now exists n.
  - inversion H as [|? ? Hk Hrest]; subst.
    destruct (PyKey_eqb k (KInt n)); simpl; constructor; auto.
Qed.

Section Properties.

Variable Socket : Type.
Variable Env : Type.
Variable socket_close : Socket -> Env -> Env.
Variable mcrcon_command : Socket -> string -> Env -> Result string * Env.
Variable handlers :
  nat -> list string -> User -> MCLink.M Socket Env (option (bool * string)).

Implicit Types (o : MCLink.t Socket) (s : MCLink.State Socket Env).

(** *** The resolver on a registry built by [register_role] *)

Lemma register_role_int_keyed o (n : Z) (level : Permission) :
  int_keyed (MCLink._role_permissions o) ->
  int_keyed (MCLink._role_permissions (MCLink.register_role n level o)).
Proof. apply int_keyed_set. Qed.

Lemma highest_role_permission_int_keyed o (rs : list Role)
      (level : Permission) :
  int_keyed (MCLink._role_permissions o) ->
  MCLink.highest_role_permission o rs level = Return level.
Proof.
  intros H. induction rs as [|r rest IH]; simpl; [reflexivity|].
  now rewrite (int_keyed_no_role _ r H).
Qed.

(** With the registry keyed by [int], whatever level the resolver returns
    is [Default]. *)
Lemma resolver_returns_Default o (u : User) (level : Permission) :
  int_keyed (MCLink._role_permissions o) ->
  MCLink.get_member_permission_level o u = Return level ->
  level = Default.
Proof.
  intros H. unfold MCLink.get_member_permission_level.
  destruct (MCLink._link o) as [l|]; [|discriminate].
  destruct (MCLink.get_guild l _) as [g|]; [|discriminate].
  destruct (MCLink.py_index _ u) as [i|]; [|congruence].
  destruct (nth_error _ i) as [m|]; [|discriminate].
  rewrite highest_role_permission_int_keyed by exact H. congruence.
Qed.

(** *** What [call] does once the command is found and allowed *)

Lemma call_runs_handler s (input : string) (u : User)
      (cmd_name : string) (cmd_args : list string) (cmd : Command)
      (level : Permission) :
  py_split space input = cmd_name :: cmd_args ->
  PyDict.get String.eqb cmd_name (MCLink._commands (MCLink.self s))
    = Some cmd ->
  MCLink.get_member_permission_level (MCLink.self s) u = Return level ->
  Permission_lt level (permission cmd) = false ->
  MCLink.call handlers input u s =
    match MCLink.apply_func handlers (func cmd) cmd_args u
                            (MCLink.debug_logged input s) with
    | (Return None, s') => (Return (true, "No response for command"), s')
    | (Return (Some r), s') => (Return r, s')
    | (Raise e, s') => (Raise e, s')
    end.
Proof.
  intros Hsplit Hget Hlevel Hlt.
  unfold MCLink.call. rewrite Hsplit.
  unfold MCLink.bind, MCLink.gets, MCLink.reads. rewrite Hget, Hlevel, Hlt.
  unfold MCLink.debug_logged, MCLink.log, MCLink.print, MCLink.ret.
  destruct (MCLink._DEBUG (MCLink.self s)); simpl;
    match goal with
    | |- context [MCLink.apply_func ?h ?f ?a ?v ?st] =>
        destruct (MCLink.apply_func h f a v st) as [[[r|]|e] s']
    end; reflexivity.
Qed.

(** C3 (as amended).  For every input whose first token, the text before
    the first space, is not a registered command name (the empty name of
    an empty input included), [call] returns without raising the pair
    [(False, "Error: Unknown command '<name>'")] and changes nothing. *)
Theorem call_unknown_command s (input : string) (u : User) :
  PyDict.get String.eqb (hd EmptyString (py_split space input))
             (MCLink._commands (MCLink.self s)) = None ->
  MCLink.call handlers input u s =
    (Return (false,
             "Error: Unknown command '"
               ++ hd EmptyString (py_split space input) ++ "'"),
     s).
Proof.
  intros Hget. unfold MCLink.call.
  pose proof (py_split_nonempty space input) as Hn.
  destruct (py_split space input) as [|cmd_name cmd_args]; [contradiction|].
  simpl in Hget. unfold MCLink.bind, MCLink.gets. now rewrite Hget.
Qed.

(** C4.  For a registered command and a user whose resolved level is
    strictly below the level the command requires, [call] returns
    [(False, "You don't have permission for that command.")] and the state
    is the one [call] was entered in, whatever the handlers are: the
    handler is not run. *)
Theorem call_permission_denied s (input : string) (u : User)
        (cmd_name : string) (cmd_args : list string) (cmd : Command)
        (level : Permission) :
  py_split space input = cmd_name :: cmd_args ->
  PyDict.get String.eqb cmd_name (MCLink._commands (MCLink.self s))
    = Some cmd ->
  MCLink.get_member_permission_level (MCLink.self s) u = Return level ->
  value level < value (permission cmd) ->
  MCLink.call handlers input u s =
    (Return (false, "You don't have permission for that command."), s).
Proof.
  intros Hsplit Hget Hlevel Hlt.
  unfold MCLink.call. rewrite Hsplit.
  unfold MCLink.bind, MCLink.gets, MCLink.reads. rewrite Hget, Hlevel.
  unfold Permission_lt. apply Z.ltb_lt in Hlt. now rewrite Hlt.
Qed.

(** C5.  While the bridge is disconnected, [execute] returns the text
    ["RCON is not connected"] for every command, raises nothing and
    leaves the state as it was. *)
Theorem execute_not_connected s (command : string) :
  MCLink.is_connected (MCLink.self s) = false ->
  MCLink.execute mcrcon_command command s
    = (Return "RCON is not connected", s).
Proof.
  intros H. unfold MCLink.execute. now rewrite H.
Qed.

(** *** The lines [help] accumulates *)

Lemma help_loop (level : Permission) (xs : list Command) (message : string) :
  fold_left
    (fun message x =>
       if Permission_ge level (permission x)
       then message ++ MCLink.help_line x
       else message) xs message
  = message ++ help_lines (available level xs).
Proof.
  revert message. induction xs as [|x rest IH]; intros message; simpl.
  - now rewrite string_app_nil_r.
  - rewrite IH. unfold Permission_ge, Permission_le.
    destruct (value (permission x) <=? value level); simpl; [|reflexivity].
    now rewrite string_app_assoc.
Qed.

Lemma help_lines_listing (xs : list Command) : help_lines xs = listing xs.
Proof.
  induction xs as [|x rest IH]; simpl; [reflexivity|]. now rewrite IH.
Qed.

Lemma help_header_greeting : MCLink.help_header = greeting.
Proof. reflexivity. Qed.

Lemma listing_occurs (x : Command) (xs : list Command) :
  In x xs ->
  exists before after : string,
    listing xs = before ++ listing_line x ++ after.
Proof.
  induction xs as [|y rest IH]; [contradiction|].
  intros [->|Hin].
  - exists EmptyString, (listing rest). reflexivity.
  - destruct (IH Hin) as (before & after & E).
    exists (listing_line y ++ before), after.
    rewrite string_app_assoc, <- E. reflexivity.
Qed.

(** What [help] returns, with the text of the message written out. *)
Lemma help_message s (args : list string) (u : User) (level : Permission) :
  MCLink.get_member_permission_level (MCLink.self s) u = Return level ->
  MCLink.help args u s =
    (Return (Some (true,
                   greeting ++
                   listing
                     (available level
                        (PyDict.values (MCLink._commands (MCLink.self s)))))),
     s).
Proof.
  intros Hlevel.
  unfold MCLink.help, MCLink.bind, MCLink.reads, MCLink.gets, MCLink.ret.
  rewrite Hlevel, help_loop, help_lines_listing, help_header_greeting.
  reflexivity.
Qed.

(** C6.  For a user whose level resolves to [level], [help] returns
    [(True, message)] where [message] is the greeting followed by the line
    [* `name` - help] of each registered command whose required level is at
    most [level], in registry order, and by nothing else.  The commands
    listed are exactly the registered ones with [permission <= level], and
    the line of each of them occurs in the message. *)
Theorem help_lists_available s (args : list string) (u : User)
        (level : Permission) :
  MCLink.get_member_permission_level (MCLink.self s) u = Return level ->
  exists message : string,
    MCLink.help args u s = (Return (Some (true, message)), s)
    /\ message =
         ("Hello! I am a Discord -> Minecraft: Java Edition server link!"
            ++ String "010" "Here are the commands available to you:"
            ++ String "010" (String "010" EmptyString))
         ++ listing
              (available level
                 (PyDict.values (MCLink._commands (MCLink.self s))))
    /\ (forall x,
           In x (available level
                   (PyDict.values (MCLink._commands (MCLink.self s))))
           <-> In x (PyDict.values (MCLink._commands (MCLink.self s)))
               /\ value (permission x) <= value level)
    /\ (forall x,
           In x (PyDict.values (MCLink._commands (MCLink.self s))) ->
           value (permission x) <= value level ->
           exists before after : string,
             message =
               before ++ "* `" ++ name x ++ "` - " ++ help x
                      ++ String "010" after).
Proof.
  intros Hlevel.
  exists (greeting
            ++ listing
                 (available level
                    (PyDict.values (MCLink._commands (MCLink.self s))))).
  split; [exact (help_message s args u level Hlevel)|].
  split; [reflexivity|]. split.
  - intros x. unfold available. rewrite filter_In, Z.leb_le. reflexivity.
  - intros x Hin Hle.
    assert (Hav : In x (available level
                     (PyDict.values (MCLink._commands (MCLink.self s))))).
    { unfold available. rewrite filter_In, Z.leb_le. tauto. }
    destruct (listing_occurs x _ Hav) as (before & after & E).
    exists (greeting ++ before), after.
    rewrite E, string_app_assoc. unfold listing_line, line_feed.
    now rewrite !string_app_assoc.
Qed.

(** C9.  For an authorized invocation, when the handler returns [None],
    [call] returns [(True, "No response for command")]; when it returns a
    [(success, message)] pair, [call] returns that pair.  In both cases the
    state is the one the handler left. *)
Theorem call_normalizes_response s (input : string) (u : User)
        (cmd_name : string) (cmd_args : list string) (cmd : Command)
        (level : Permission) (response : option (bool * string)) s' :
  py_split space input = cmd_name :: cmd_args ->
  PyDict.get String.eqb cmd_name (MCLink._commands (MCLink.self s))
    = Some cmd ->
  MCLink.get_member_permission_level (MCLink.self s) u = Return level ->
  Permission_lt level (permission cmd) = false ->
  MCLink.apply_func handlers (func cmd) cmd_args u
                    (MCLink.debug_logged input s) = (Return response, s') ->
  (response = None ->
   MCLink.call handlers input u s
     = (Return (true, "No response for command"), s'))
  /\ (forall (success : bool) (message : string),
         response = Some (success, message) ->
         MCLink.call handlers input u s = (Return (success, message), s')).
Proof.
  intros Hsplit Hget Hlevel Hlt Hrun.
  rewrite (call_runs_handler s input u _ _ _ _ Hsplit Hget Hlevel Hlt), Hrun.
  split; [intros -> | intros success message ->]; reflexivity.
Qed.

(** C7 (as amended).  [call] splits its input at every space character
    (U+0020) and at nothing else: the tokens joined by single spaces give
    back the input and no token holds a space, so other whitespace stays
    inside tokens and consecutive spaces give empty tokens.  The first token
    is the command name, looked up as it is; the remaining tokens, in
    order, are the argument list the handler is called with. *)
Theorem call_splits_on_space s (input : string) (u : User) :
  exists (cmd_name : string) (cmd_args : list string),
    py_split space input = cmd_name :: cmd_args
    /\ py_join " " (cmd_name :: cmd_args) = input
    /\ Forall (fun tok => contains_char space tok = false)
              (cmd_name :: cmd_args)
    /\ (PyDict.get String.eqb cmd_name (MCLink._commands (MCLink.self s))
          = None ->
        MCLink.call handlers input u s =
          (Return (false, "Error: Unknown command '" ++ cmd_name ++ "'"), s))
    /\ (forall (cmd : Command) (level : Permission),
           PyDict.get String.eqb cmd_name (MCLink._commands (MCLink.self s))
             = Some cmd ->
           MCLink.get_member_permission_level (MCLink.self s) u
             = Return level ->
           Permission_lt level (permission cmd) = false ->
           MCLink.call handlers input u s =
             match MCLink.apply_func handlers (func cmd) cmd_args u
                                     (MCLink.debug_logged input s) with
             | (Return None, s') =>
                 (Return (true, "No response for command"), s')
             | (Return (Some r), s') => (Return r, s')
             | (Raise e, s') => (Raise e, s')
             end).
Proof.
  pose proof (py_split_nonempty space input) as Hn.
  pose proof (py_split_join space input) as Hjoin.
  pose proof (py_split_no_sep space input) as Hsep.
  destruct (py_split space input) as [|cmd_name cmd_args] eqn:Hsplit;
    [contradiction|].
  exists cmd_name, cmd_args. repeat split; try assumption.
  - intros Hget. unfold MCLink.call. rewrite Hsplit.
    unfold MCLink.bind, MCLink.gets. now rewrite Hget.
  - intros cmd level Hget Hlevel Hlt.
    now apply call_runs_handler with (cmd_name := cmd_name) (level := level).
Qed.

Lemma self_traced (this : MCLink.DiscordLink) (message : MCLink.Message) s :
  MCLink.self (MCLink.traced this message s) = MCLink.self s.
Proof. unfold MCLink.traced. now destruct (MCLink.link_DEBUG this). Qed.


(** C8 (as amended).  [register_admin] appends the user id to the end of
    the admin list, which is a list and not a set: registering the same id
    twice leaves two more occurrences of it, one more than registering it
    once, while the ids that occur in the list are the same. *)
Theorem register_admin_appends o (user_id : Z) :
  MCLink._bot_admins (MCLink.register_admin user_id o)
    = (MCLink._bot_admins o ++ [user_id])%list
  /\ MCLink._bot_admins
       (MCLink.register_admin user_id (MCLink.register_admin user_id o))
     = (MCLink._bot_admins o ++ [user_id; user_id])%list
  /\ (forall x,
         In x (MCLink._bot_admins
                 (MCLink.register_admin user_id
                    (MCLink.register_admin user_id o)))
         <-> In x (MCLink._bot_admins (MCLink.register_admin user_id o))).
Proof.
  repeat split; simpl.
  - now rewrite <- app_assoc.
  - rewrite !in_app_iff. simpl. tauto.
  - rewrite !in_app_iff. simpl. tauto.
Qed.

(** C10.  [close] never raises and leaves the bridge disconnected; closing
    again changes nothing, and so does closing a bridge that is already
    disconnected. *)
Theorem close_idempotent s :
  fst (MCLink.close socket_close s) = Return tt
  /\ MCLink.is_connected (MCLink.self (snd (MCLink.close socket_close s)))
     = false
  /\ MCLink.close socket_close (snd (MCLink.close socket_close s))
     = (Return tt, snd (MCLink.close socket_close s))
  /\ (MCLink.is_connected (MCLink.self s) = false ->
      MCLink.close socket_close s = (Return tt, s)).
Proof.
  unfold MCLink.close, MCLink.is_connected.
  destruct (MCLink._rcon_socket (MCLink.self s)) as [sock|] eqn:E; simpl;
    rewrite ?E; repeat split; try reflexivity; discriminate.
Qed.

End Properties.

(** * Further properties *)

(** ** Facts about dictionaries *)

Section DictFacts.

Context {K V : Type}.
Variable eqb : K -> K -> bool.
Hypothesis eqb_eq : forall a b, eqb a b = true <-> a = b.

Lemma dict_eqb_refl (k : K) : eqb k k = true.
Proof. now apply eqb_eq. Qed.

Lemma dict_eqb_neq (a b : K) : a <> b -> eqb a b = false.
Proof.
  intros H. destruct (eqb a b) eqn:E; [|reflexivity].
  apply eqb_eq in E. contradiction.
Qed.

Lemma dict_get_set_same (k : K) (v : V) (d : PyDict.dict) :
  PyDict.get eqb k (PyDict.set eqb k v d) = Some v.
Proof.
  induction d as [|[k' v'] rest IH]; simpl.
  - now rewrite dict_eqb_refl.
  - destruct (eqb k' k) eqn:E; simpl; now rewrite E.
Qed.

Lemma dict_get_set_other (k k' : K) (v : V) (d : PyDict.dict) :
  k' <> k -> PyDict.get eqb k' (PyDict.set eqb k v d) = PyDict.get eqb k' d.
Proof.
  intros Hne. induction d as [|[k0 v0] rest IH]; simpl.
  - rewrite dict_eqb_neq; [reflexivity | congruence].
  - destruct (eqb k0 k) eqn:E; simpl.
    + apply eqb_eq in E. subst k0.
      rewrite dict_eqb_neq; [reflexivity | congruence].
    + now destruct (eqb k0 k').
Qed.

Lemma dict_get_In (k : K) (v : V) (d : PyDict.dict) :
  PyDict.get eqb k d = Some v -> In (k, v) d.
Proof.
  induction d as [|[k0 v0] rest IH]; simpl; [discriminate|].
  destruct (eqb k0 k) eqn:E.
  - apply eqb_eq in E. intros [= <-]. left. now subst.
  - intros H. right. now apply IH.
Qed.

Lemma dict_contains_keys (k : K) (d : PyDict.dict (V := V)) :
  PyDict.contains eqb k d = true <-> In k (PyDict.keys d).
Proof.
  unfold PyDict.contains.
  induction d as [|[k0 v0] rest IH]; simpl.
  - split; [discriminate | contradiction].
  - destruct (eqb k0 k) eqn:E.
    + apply eqb_eq in E. split; auto.
    + rewrite IH. split; [now right|].
      intros [H|H]; [|exact H]. subst. now rewrite dict_eqb_refl in E.
Qed.

Lemma dict_keys_set (k : K) (v : V) (d : PyDict.dict) :
  PyDict.keys (PyDict.set eqb k v d)
  = if PyDict.contains eqb k d then PyDict.keys d
    else (PyDict.keys d ++ [k])%list.
Proof.
  unfold PyDict.contains.
  induction d as [|[k0 v0] rest IH]; simpl; [reflexivity|].
  destruct (eqb k0 k) eqn:E; simpl; [reflexivity|].
  rewrite IH. now destruct (PyDict.get eqb k rest).
Qed.

Lemma dict_set_set (k : K) (v w : V) (d : PyDict.dict) :
  PyDict.set eqb k w (PyDict.set eqb k v d) = PyDict.set eqb k w d.
Proof.
  induction d as [|[k0 v0] rest IH]; simpl.
  - now rewrite dict_eqb_refl.
  - destruct (eqb k0 k) eqn:E; simpl; rewrite E; [reflexivity|].
    now rewrite IH.
Qed.

Lemma dict_set_NoDup (k : K) (v : V) (d : PyDict.dict) :
  NoDup (PyDict.keys d) -> NoDup (PyDict.keys (PyDict.set eqb k v d)).
Proof.
  intros H. rewrite dict_keys_set.
  destruct (PyDict.contains eqb k d) eqn:E; [exact H|].
  apply NoDup_app; [exact H | repeat constructor; simpl; tauto |].
  intros x Hx [<-|[]]. apply dict_contains_keys in Hx. congruence.
Qed.

End DictFacts.

Lemma PyKey_eqb_eq (a b : PyKey) : PyKey_eqb a b = true <-> a = b.
Proof.
  destruct a as [m|[r]], b as [n|[t]]; simpl;
    try (split; [discriminate | congruence]).
  - rewrite Z.eqb_eq. split; congruence.
  - rewrite Z.eqb_eq. split; congruence.
Qed.

(** Dropping commands from a list keeps their names distinct. *)
Lemma available_names_distinct (level : Permission) (cmds : list Command) :
  NoDup (map name cmds) -> NoDup (map name (available level cmds)).
Proof.
  unfold available. induction cmds as [|c rest IH]; simpl; intros Hnd.
  - constructor.
  - apply NoDup_cons_iff in Hnd. destruct Hnd as [Hfresh Hrest].
    destruct (value (permission c) <=? value level); simpl; auto.
    apply NoDup_cons; auto.
    intros Hin. apply Hfresh.
    apply in_map_iff in Hin. destruct Hin as (c' & Hname & Hc').
    apply filter_In in Hc'. apply in_map_iff. exists c'. tauto.
Qed.

(** ** The permission scale *)

(** X1.  [<] on [Permission] is a strict total order, the one of the
    numeric values; [<=] is its reflexive closure; [Default] is the least
    and [Owner] the greatest level. *)
Theorem Permission_order :
  (forall a, Permission_lt a a = false)
  /\ (forall a b c,
         Permission_lt a b = true -> Permission_lt b c = true ->
         Permission_lt a c = true)
  /\ (forall a b, Permission_lt a b = true \/ a = b \/ Permission_lt b a = true)
  /\ (forall a b, Permission_le a b = negb (Permission_lt b a))
  /\ (forall a, Permission_le Default a = true /\ Permission_le a Owner = true).
Proof.
  repeat split.
  - intros a. unfold Permission_lt. apply Z.ltb_irrefl.
  - intros a b c. unfold Permission_lt. rewrite !Z.ltb_lt. lia.
  - intros a b. destruct a, b; vm_compute; auto.
  - intros a b. unfold Permission_le, Permission_lt. apply Z.leb_antisym.
  - destruct a; reflexivity.
  - destruct a; reflexivity.
Qed.

Section MoreProperties.

Variable Socket : Type.
Variable Env : Type.
Variable socket_close : Socket -> Env -> Env.
Variable mcrcon_command : Socket -> string -> Env -> Result string * Env.
Variable handlers :
  nat -> list string -> User -> MCLink.M Socket Env (option (bool * string)).

Implicit Types (o : MCLink.t Socket) (s : MCLink.State Socket Env).

(** [call], case by case. *)
Lemma call_unfold s (input : string) (u : User) :
  MCLink.call handlers input u s =
    match py_split space input with
    | [] => (Raise (mkExc IndexError "list index out of range"), s)
    | cmd_name :: cmd_args =>
        match PyDict.get String.eqb cmd_name
                         (MCLink._commands (MCLink.self s)) with
        | None =>
            (Return (false, "Error: Unknown command '" ++ cmd_name ++ "'"), s)
        | Some cmd =>
            match MCLink.get_member_permission_level (MCLink.self s) u with
            | Raise e => (Raise e, s)
            | Return level =>
                if Permission_lt level (permission cmd) then
                  (Return (false,
                           "You don't have permission for that command."), s)
                else
                  match MCLink.apply_func handlers (func cmd) cmd_args u
                                          (MCLink.debug_logged input s) with
                  | (Return None, s') =>
                      (Return (true, "No response for command"), s')
                  | (Return (Some r), s') => (Return r, s')
                  | (Raise e, s') => (Raise e, s')
                  end
            end
        end
    end.
Proof.
  unfold MCLink.call.
  destruct (py_split space input) as [|cmd_name cmd_args]; [reflexivity|].
  unfold MCLink.bind, MCLink.gets, MCLink.reads.
  destruct (PyDict.get String.eqb cmd_name _) as [cmd|]; [|reflexivity].
  destruct (MCLink.get_member_permission_level _ u) as [level|e];
    [|reflexivity].
  destruct (Permission_lt level (permission cmd)); [reflexivity|].
  unfold MCLink.debug_logged, MCLink.log, MCLink.print, MCLink.ret.
  destruct (MCLink._DEBUG (MCLink.self s)); simpl;
    match goal with
    | |- context [MCLink.apply_func ?h ?f ?a ?v ?st] =>
        destruct (MCLink.apply_func h f a v st) as [[[r|]|e] s']
    end; reflexivity.
Qed.

(** *** The resolver reads the client, the guild id and the role registry *)

Lemma highest_role_permission_ext o o' (rs : list Role) (level : Permission) :
  MCLink._role_permissions o = MCLink._role_permissions o' ->
  MCLink.highest_role_permission o rs level
  = MCLink.highest_role_permission o' rs level.
Proof.
  intros H. revert level.
  induction rs as [|r rest IH]; intros level; simpl; [reflexivity|].
  rewrite <- H.
  destruct (PyDict.contains PyKey_eqb (KRole r) _); [|apply IH].
  destruct (PyDict.get PyKey_eqb (KInt (role_id r)) _); [apply IH|reflexivity].
Qed.

Lemma resolver_ext o o' (u : User) :
  MCLink._link o = MCLink._link o' ->
  MCLink._guild_id o = MCLink._guild_id o' ->
  MCLink._role_permissions o = MCLink._role_permissions o' ->
  MCLink.get_member_permission_level o u
  = MCLink.get_member_permission_level o' u.
Proof.
  intros Hl Hg Hr. unfold MCLink.get_member_permission_level.
  rewrite <- Hl, <- Hg.
  destruct (MCLink._link o) as [l|]; [|reflexivity].
  destruct (MCLink.get_guild l _) as [g|]; [|reflexivity].
  destruct (MCLink.py_index _ u) as [i|]; [|reflexivity].
  destruct (nth_error _ i) as [m|]; [|reflexivity].
  now apply highest_role_permission_ext.
Qed.

Lemma py_index_None (ms : list Member) (u : User) :
  (forall m, In m ms -> member_id m <> user_id u) ->
  MCLink.py_index ms u = None.
Proof.
  induction ms as [|m rest IH]; simpl; intros H; [reflexivity|].
  unfold Member_eq_User.
  destruct (Z.eqb_spec (member_id m) (user_id u)) as [E|_].
  - exfalso. apply (H m); auto.
  - rewrite IH; [reflexivity|]. intros m' Hm'. apply H. now right.
Qed.

(** X2.  A user who is not in the roster of the guild resolves to
    [Default], whatever roles are registered. *)
Theorem resolver_unknown_member o (u : User) (l : MCLink.DiscordLink)
        (g : Guild) :
  MCLink._link o = Some l ->
  MCLink.get_guild l (MCLink._guild_id o) = Some g ->
  (forall m, In m (members g) -> member_id m <> user_id u) ->
  MCLink.get_member_permission_level o u = Return Default.
Proof.
  intros Hl Hg Hm. unfold MCLink.get_member_permission_level.
  now rewrite Hl, Hg, (py_index_None _ _ Hm).
Qed.

(** X3.  Without a client, or with a client that does not know the guild,
    [call] of any registered command raises [AttributeError] out of the
    resolver and changes nothing; no handler runs. *)
Theorem call_without_roster s (input : string) (u : User)
        (cmd_name : string) (cmd_args : list string) (cmd : Command) :
  py_split space input = cmd_name :: cmd_args ->
  PyDict.get String.eqb cmd_name (MCLink._commands (MCLink.self s))
    = Some cmd ->
  (MCLink._link (MCLink.self s) = None ->
   MCLink.call handlers input u s
     = (Raise (MCLink.no_attribute "get_guild"), s))
  /\ (forall l,
         MCLink._link (MCLink.self s) = Some l ->
         MCLink.get_guild l (MCLink._guild_id (MCLink.self s)) = None ->
         MCLink.call handlers input u s
           = (Raise (MCLink.no_attribute "members"), s)).
Proof.
  intros Hsplit Hget. rewrite call_unfold, Hsplit, Hget.
  unfold MCLink.get_member_permission_level. split.
  - intros ->. reflexivity.
  - intros l -> ->. reflexivity.
Qed.

(** X4.  The role registry stays keyed by [int] ids: it is so after
    [__init__], and [register_role], [register_command] and
    [register_admin] keep it so. *)
Theorem role_registry_int_keyed :
  int_keyed (MCLink._role_permissions (MCLink.init Socket))
  /\ (forall o (n : Z) (level : Permission),
         int_keyed (MCLink._role_permissions o) ->
         int_keyed (MCLink._role_permissions (MCLink.register_role n level o)))
  /\ (forall o (n : string) (level : Permission) (f : Callable) (h : string),
         int_keyed (MCLink._role_permissions o) ->
         int_keyed (MCLink._role_permissions
                      (MCLink.register_command n level f h o)))
  /\ (forall o (n : Z),
         int_keyed (MCLink._role_permissions o) ->
         int_keyed (MCLink._role_permissions (MCLink.register_admin n o))).
Proof.
  repeat split; try (intros; assumption).
  - constructor.
  - intros o n level H. now apply int_keyed_set.
Qed.

(** X5.  With the role registry keyed by [int] ids, no user ever gets past
    the gate of a command that requires more than [Default]: [call] either
    returns the permission refusal or raises the resolver's exception, and
    in both cases changes nothing. *)
Theorem elevated_commands_unreachable s (input : string) (u : User)
        (cmd_name : string) (cmd_args : list string) (cmd : Command) :
  int_keyed (MCLink._role_permissions (MCLink.self s)) ->
  py_split space input = cmd_name :: cmd_args ->
  PyDict.get String.eqb cmd_name (MCLink._commands (MCLink.self s))
    = Some cmd ->
  value Default < value (permission cmd) ->
  MCLink.call handlers input u s
    = (Return (false, "You don't have permission for that command."), s)
  \/ (exists e,
         MCLink.get_member_permission_level (MCLink.self s) u = Raise e
         /\ MCLink.call handlers input u s = (Raise e, s)).
Proof.
  intros Hkeys Hsplit Hget Hlt. rewrite call_unfold, Hsplit, Hget.
  destruct (MCLink.get_member_permission_level (MCLink.self s) u)
    as [level|e] eqn:E.
  - left. rewrite (resolver_returns_Default _ _ _ _ Hkeys E).
    unfold Permission_lt. apply Z.ltb_lt in Hlt. now rewrite Hlt.
  - right. now exists e.
Qed.

(** X6.  The admin list is never read by the resolver or by [help]:
    registering a user as admin leaves every user's level, and the help
    message, as they were. *)
Theorem register_admin_grants_nothing s (id : Z) (u : User)
        (args : list string) :
  MCLink.get_member_permission_level
    (MCLink.register_admin id (MCLink.self s)) u
  = MCLink.get_member_permission_level (MCLink.self s) u
  /\ fst (MCLink.help args u
            (with_object (MCLink.register_admin id (MCLink.self s)) s))
     = fst (MCLink.help args u s).
Proof.
  assert (H : MCLink.get_member_permission_level
                (MCLink.register_admin id (MCLink.self s)) u
              = MCLink.get_member_permission_level (MCLink.self s) u)
    by now apply resolver_ext.
  split; [exact H|].
  unfold MCLink.help, MCLink.bind, MCLink.reads, MCLink.gets, MCLink.ret.
  simpl MCLink.self. rewrite H.
  now destruct (MCLink.get_member_permission_level (MCLink.self s) u).
Qed.

(** *** The two gates agree *)

(** X7.  [help] and [call] apply the same gate: for a user whose level
    resolves, the message of [help] is the greeting and the lines of the
    registered commands with [permission <= level], and a registered
    command is run by [call] when it is among those listed and refused by
    [call] when it is not. *)
Theorem help_lists_what_call_allows s (u : User) (level : Permission)
        (args : list string) (cmd_name : string) (cmd : Command) :
  MCLink.get_member_permission_level (MCLink.self s) u = Return level ->
  PyDict.get String.eqb cmd_name (MCLink._commands (MCLink.self s))
    = Some cmd ->
  exists listed : list Command,
    MCLink.help args u s
      = (Return (Some (true, greeting ++ listing listed)), s)
    /\ (forall x,
           In x listed
           <-> In x (PyDict.values (MCLink._commands (MCLink.self s)))
               /\ value (permission x) <= value level)
    /\ (In cmd listed ->
        forall (input : string) (cmd_args : list string),
          py_split space input = cmd_name :: cmd_args ->
          MCLink.call handlers input u s =
            match MCLink.apply_func handlers (func cmd) cmd_args u
                                    (MCLink.debug_logged input s) with
            | (Return None, s') =>
                (Return (true, "No response for command"), s')
            | (Return (Some r), s') => (Return r, s')
            | (Raise e, s') => (Raise e, s')
            end)
    /\ (~ In cmd listed ->
        forall (input : string) (cmd_args : list string),
          py_split space input = cmd_name :: cmd_args ->
          MCLink.call handlers input u s =
            (Return (false, "You don't have permission for that command."),
             s)).
Proof.
  intros Hlevel Hget.
  exists (available level
            (PyDict.values (MCLink._commands (MCLink.self s)))).
  split; [exact (help_message Socket Env s args u level Hlevel)|].
  split;
    [intros x; unfold available; rewrite filter_In, Z.leb_le; reflexivity|].
  assert (Hin : In cmd (PyDict.values (MCLink._commands (MCLink.self s)))).
  { apply (dict_get_In String.eqb String.eqb_eq) in Hget.
    unfold PyDict.values. apply in_map_iff. now exists (cmd_name, cmd). }
  assert (Hiff : In cmd (available level
                   (PyDict.values (MCLink._commands (MCLink.self s))))
                 <-> Permission_lt level (permission cmd) = false).
  { unfold available, Permission_lt. rewrite filter_In, Z.leb_le, Z.ltb_ge.
    tauto. }
  split; intros H input cmd_args Hsplit;
    rewrite call_unfold, Hsplit, Hget, Hlevel.
  - apply Hiff in H. now rewrite H.
  - destruct (Permission_lt level (permission cmd)) eqn:E; [reflexivity|].
    exfalso. now apply H, Hiff.
Qed.

(** X8.  A command registered at [Default] is never refused: for every
    user whose level resolves, [call] runs its handler. *)
Theorem default_command_never_refused s (input : string) (u : User)
        (level : Permission) (cmd_name : string) (cmd_args : list string)
        (cmd : Command) :
  py_split space input = cmd_name :: cmd_args ->
  PyDict.get String.eqb cmd_name (MCLink._commands (MCLink.self s))
    = Some cmd ->
  permission cmd = Default ->
  MCLink.get_member_permission_level (MCLink.self s) u = Return level ->
  MCLink.call handlers input u s =
    match MCLink.apply_func handlers (func cmd) cmd_args u
                            (MCLink.debug_logged input s) with
    | (Return None, s') => (Return (true, "No response for command"), s')
    | (Return (Some r), s') => (Return r, s')
    | (Raise e, s') => (Raise e, s')
    end.
Proof.
  intros Hsplit Hget Hperm Hlevel.
  rewrite call_unfold, Hsplit, Hget, Hlevel, Hperm.
  now destruct level.
Qed.

(** *** Registration *)

Lemma registry_set_entries (n : string) (c : Command)
      (d : PyDict.dict (K := string) (V := Command)) :
  name c = n ->
  Forall (fun kv => name (snd kv) = fst kv) d ->
  Forall (fun kv => name (snd kv) = fst kv) (PyDict.set String.eqb n c d).
Proof.
  intros Hc. induction d as [|[k v] rest IH]; simpl; intros H.
  - repeat constructor. exact Hc.
  - apply Forall_cons_iff in H. destruct H as [Hkv Hrest].
    destruct (String.eqb_spec k n) as [E|E]; constructor; auto.
    simpl. congruence.
Qed.

Lemma registry_names (d : PyDict.dict (K := string) (V := Command)) :
  Forall (fun kv => name (snd kv) = fst kv) d ->
  map name (PyDict.values d) = PyDict.keys d.
Proof.
  unfold PyDict.values, PyDict.keys.
  induction d as [|[k v] rest IH]; simpl; intros H; [reflexivity|].
  inversion H as [|? ? Hkv Hrest]; subst. simpl in Hkv.
  now rewrite Hkv, IH.
Qed.

(** X9.  After [register_command(name, level, func, help)] the registry
    maps [name] to exactly that command, replacing any earlier entry, and
    maps every other name as before. *)
Theorem register_command_lookup o (n : string) (level : Permission)
        (f : Callable) (h : string) :
  PyDict.get String.eqb n
             (MCLink._commands (MCLink.register_command n level f h o))
  = Some (mkCommand n level f h)
  /\ (forall other : string,
         other <> n ->
         PyDict.get String.eqb other
                    (MCLink._commands (MCLink.register_command n level f h o))
         = PyDict.get String.eqb other (MCLink._commands o)).
Proof.
  split.
  - apply (dict_get_set_same String.eqb String.eqb_eq).
  - intros other Hne.
    now apply (dict_get_set_other String.eqb String.eqb_eq).
Qed.

(** X10.  Registration then dispatch: once a command is registered, a user
    whose level resolves to at least the required one reaches the new
    function through [call], with the tokens after the name as arguments. *)
Theorem register_command_then_call s (input : string) (u : User)
        (n : string) (cmd_args : list string) (level user_level : Permission)
        (f : Callable) (h : string) :
  py_split space input = n :: cmd_args ->
  MCLink.get_member_permission_level (MCLink.self s) u = Return user_level ->
  value level <= value user_level ->
  let s1 :=
    with_object (MCLink.register_command n level f h (MCLink.self s)) s in
  MCLink.call handlers input u s1 =
    match MCLink.apply_func handlers f cmd_args u
                            (MCLink.debug_logged input s1) with
    | (Return None, s') => (Return (true, "No response for command"), s')
    | (Return (Some r), s') => (Return r, s')
    | (Raise e, s') => (Raise e, s')
    end.
Proof.
  intros Hsplit Hlevel Hle s1.
  assert (Hget : PyDict.get String.eqb n (MCLink._commands (MCLink.self s1))
                 = Some (mkCommand n level f h))
    by apply (dict_get_set_same String.eqb String.eqb_eq).
  assert (Hres : MCLink.get_member_permission_level (MCLink.self s1) u
                 = Return user_level)
    by (rewrite <- Hlevel; now apply resolver_ext).
  rewrite call_unfold, Hsplit, Hget, Hres. simpl permission. simpl func.
  unfold Permission_lt. apply Z.ltb_ge in Hle. now rewrite Hle.
Qed.

(** X11.  Registering a name that is already registered keeps the order
    of the registry, and so the position of the command in the help
    listing; a new name goes to the end. *)
Theorem register_command_order o (n : string) (level : Permission)
        (f : Callable) (h : string) :
  PyDict.keys (MCLink._commands (MCLink.register_command n level f h o))
  = if PyDict.contains String.eqb n (MCLink._commands o)
    then PyDict.keys (MCLink._commands o)
    else (PyDict.keys (MCLink._commands o) ++ [n])%list.
Proof.
  apply (dict_keys_set String.eqb).
Qed.

(** X12.  The registry built by [__init__] and [register_command] holds
    each name once, and each command under its own name. *)
Theorem registry_wf_invariant :
  registry_wf (MCLink._commands (MCLink.init Socket))
  /\ (forall o (n : string) (level : Permission) (f : Callable) (h : string),
         registry_wf (MCLink._commands o) ->
         registry_wf (MCLink._commands
                        (MCLink.register_command n level f h o))).
Proof.
  split.
  - split; simpl.
    + repeat constructor. simpl. tauto.
    + repeat constructor.
  - intros o n level f h [Hnd Hall]. split; simpl.
    + now apply (dict_set_NoDup String.eqb String.eqb_eq).
    + now apply registry_set_entries.
Qed.

(** X13.  On such a registry no name is listed twice by [help]: for a
    user whose level resolves, the message of [help] is the greeting and
    the lines of registered commands with pairwise different names, every
    permitted command among them. *)
Theorem help_lists_each_name_once s (args : list string) (u : User)
        (level : Permission) :
  registry_wf (MCLink._commands (MCLink.self s)) ->
  MCLink.get_member_permission_level (MCLink.self s) u = Return level ->
  exists listed : list Command,
    MCLink.help args u s
      = (Return (Some (true, greeting ++ listing listed)), s)
    /\ NoDup (map name listed)
    /\ (forall x,
           In x listed
           <-> In x (PyDict.values (MCLink._commands (MCLink.self s)))
               /\ value (permission x) <= value level).
Proof.
  intros [Hnd Hall] Hlevel.
  exists (available level
            (PyDict.values (MCLink._commands (MCLink.self s)))).
  split; [exact (help_message Socket Env s args u level Hlevel)|]. split.
  - apply available_names_distinct. now rewrite registry_names.
  - intros x. unfold available. rewrite filter_In, Z.leb_le. reflexivity.
Qed.

(** X14.  [register_role] is an upsert: the id maps to the level given
    last, an earlier level for the same id leaves no trace (so registering
    twice is registering once), and other ids keep their level. *)
Theorem register_role_upsert o (r : Z) (l1 l2 : Permission) :
  PyDict.get PyKey_eqb (KInt r)
             (MCLink._role_permissions (MCLink.register_role r l2 o))
  = Some l2
  /\ MCLink.register_role r l2 (MCLink.register_role r l1 o)
     = MCLink.register_role r l2 o
  /\ (forall r' : Z,
         r' <> r ->
         PyDict.get PyKey_eqb (KInt r')
                    (MCLink._role_permissions (MCLink.register_role r l2 o))
         = PyDict.get PyKey_eqb (KInt r') (MCLink._role_permissions o)).
Proof.
  repeat split.
  - apply (dict_get_set_same PyKey_eqb PyKey_eqb_eq).
  - unfold MCLink.register_role. simpl.
    now rewrite (dict_set_set PyKey_eqb PyKey_eqb_eq).
  - intros r' Hne.
    apply (dict_get_set_other PyKey_eqb PyKey_eqb_eq). congruence.
Qed.

(** *** The RCON bridge *)

(** X15.  [execute] touches only the environment: the object, the output
    and the sent messages are as before, also when the RCON call raises.
    In particular a failed RCON call does not disconnect the bridge. *)
Theorem execute_keeps_object s (command : string) :
  MCLink.self (snd (MCLink.execute mcrcon_command command s)) = MCLink.self s
  /\ MCLink.stdout (snd (MCLink.execute mcrcon_command command s))
     = MCLink.stdout s
  /\ MCLink.sent (snd (MCLink.execute mcrcon_command command s))
     = MCLink.sent s
  /\ MCLink.is_connected
       (MCLink.self (snd (MCLink.execute mcrcon_command command s)))
     = MCLink.is_connected (MCLink.self s).
Proof.
  assert (H : MCLink.self (snd (MCLink.execute mcrcon_command command s))
              = MCLink.self s
              /\ MCLink.stdout (snd (MCLink.execute mcrcon_command command s))
                 = MCLink.stdout s
              /\ MCLink.sent (snd (MCLink.execute mcrcon_command command s))
                 = MCLink.sent s).
  { unfold MCLink.execute.
    destruct (negb (MCLink.is_connected (MCLink.self s))); [auto|].
    destruct (MCLink._rcon_socket (MCLink.self s)) as [sock|]; [|auto].
    destruct (mcrcon_command sock command (MCLink.env s)) as [r e]. auto. }
  destruct H as (H1 & H2 & H3). repeat split; try assumption.
  now rewrite H1.
Qed.

(** X16.  After [close], [execute] answers every command with the
    sentinel text and does not reach the RCON server. *)
Theorem execute_after_close s (command : string) :
  MCLink.execute mcrcon_command command (snd (MCLink.close socket_close s))
  = (Return "RCON is not connected", snd (MCLink.close socket_close s)).
Proof.
  unfold MCLink.execute, MCLink.close, MCLink.is_connected.
  destruct (MCLink._rcon_socket (MCLink.self s)) as [sock|] eqn:E; simpl;
    now rewrite ?E.
Qed.

(** *** The chat adapter *)

Lemma on_message_unfold s (this : MCLink.DiscordLink)
      (message : MCLink.Message) :
  MCLink.on_message handlers this message s =
    let s1 := MCLink.traced this message s in
    if MCLink.author_is_self this message || user_bot (MCLink.author message)
    then (Return tt, s1)
    else if startswith "!" (MCLink.content message) then
      match MCLink.call handlers (drop_first (MCLink.content message))
                        (MCLink.author message) s1 with
      | (Return r, s') =>
          (Return tt,
           MCLink.mkState (MCLink.self s') (MCLink.stdout s')
             (MCLink.sent s'
                ++ [(MCLink.channel message,
                     (if negb (fst r) then "[FAIL] " else "") ++ snd r)])
             (MCLink.env s'))
      | (Raise e, s') =>
          if is_Exception e
          then (Return tt,
                MCLink.fault_reported message
                  (MCLink.fault_notice (drop_first (MCLink.content message)) e)
                  s')
          else (Raise e, s')
      end
    else (Return tt, s1).
Proof.
  unfold MCLink.on_message, MCLink.traced.
  destruct (MCLink.link_DEBUG this);
    unfold MCLink.bind at 1;
    [unfold MCLink.print at 1 | unfold MCLink.ret at 1];
    cbv zeta;
    (destruct (MCLink.author_is_self this message
               || user_bot (MCLink.author message)); [reflexivity|]);
    (destruct (startswith "!" (MCLink.content message)); [|reflexivity]);
    unfold MCLink.try_except, MCLink.bind at 1;
    match goal with
    | |- context [MCLink.call ?h ?i ?a ?st] =>
        destruct (MCLink.call h i a st) as [[r|e] s']
    end; try reflexivity;
    destruct (is_Exception e); reflexivity.
Qed.

(** X17.  [on_message] drops a message written by the client's own
    account or by a bot, and a message that does not start with ['!']
    (an empty one included): no command is called and nothing is sent. *)
Theorem on_message_ignores s (this : MCLink.DiscordLink)
        (message : MCLink.Message) :
  MCLink.author_is_self this message = true
  \/ user_bot (MCLink.author message) = true
  \/ startswith "!" (MCLink.content message) = false ->
  MCLink.on_message handlers this message s
  = (Return tt, MCLink.traced this message s).
Proof.
  intros H. rewrite on_message_unfold. cbv zeta.
  destruct H as [-> | [-> | ->]];
    rewrite ?orb_true_r; try reflexivity.
  now destruct (_ || _).
Qed.

(** X18.  When [call] returns [(success, text)] for a command message,
    [on_message] sends exactly one message to the channel of the
    command: [text] on success, ["[FAIL] " + text] otherwise. *)
Theorem on_message_relays s (this : MCLink.DiscordLink)
        (message : MCLink.Message) (input : string)
        (success : bool) (text : string) s' :
  MCLink.content message = String "!" input ->
  MCLink.author_is_self this message = false ->
  user_bot (MCLink.author message) = false ->
  MCLink.call handlers input (MCLink.author message)
              (MCLink.traced this message s) = (Return (success, text), s') ->
  MCLink.on_message handlers this message s
  = (Return tt,
     MCLink.mkState (MCLink.self s') (MCLink.stdout s')
       (MCLink.sent s'
          ++ [(MCLink.channel message,
               if success then text else "[FAIL] " ++ text)])
       (MCLink.env s')).
Proof.
  intros Hcontent Hself Hbot Hcall.
  rewrite on_message_unfold. cbv zeta. rewrite Hself, Hbot, Hcontent.
  change (startswith "!" (String "!" input)) with true.
  change (drop_first (String "!" input)) with input.
  cbn [orb]. rewrite Hcall.
  now destruct success.
Qed.

(** X19.  With printing and sending taken to succeed, no [Exception]
    leaves [on_message]: it returns normally, or raises an exception that
    is not an [Exception] (one that came out of [call]). *)
Theorem on_message_contains_faults s (this : MCLink.DiscordLink)
        (message : MCLink.Message) :
  fst (MCLink.on_message handlers this message s) = Return tt
  \/ (exists e,
         fst (MCLink.on_message handlers this message s) = Raise e
         /\ is_Exception e = false).
Proof.
  rewrite on_message_unfold. cbv zeta.
  destruct (_ || _); [now left|].
  destruct (startswith "!" _); [|now left].
  destruct (MCLink.call _ _ _ _) as [[r|e] s']; [now left|].
  destruct (is_Exception e) eqn:E; [now left|].
  right. now exists e.
Qed.

(** X20.  An unknown command typed in chat is answered in the channel by
    ["[FAIL] Error: Unknown command '<name>'"]; nothing else changes. *)
Theorem on_message_unknown_command s (this : MCLink.DiscordLink)
        (message : MCLink.Message) (input : string) :
  MCLink.content message = String "!" input ->
  MCLink.author_is_self this message = false ->
  user_bot (MCLink.author message) = false ->
  PyDict.get String.eqb (hd EmptyString (py_split space input))
             (MCLink._commands (MCLink.self s)) = None ->
  MCLink.on_message handlers this message s
  = (Return tt,
     MCLink.mkState (MCLink.self s)
       (MCLink.stdout (MCLink.traced this message s))
       (MCLink.sent s
          ++ [(MCLink.channel message,
               "[FAIL] Error: Unknown command '"
                 ++ hd EmptyString (py_split space input) ++ "'")])
       (MCLink.env s)).
Proof.
  intros Hcontent Hself Hbot Hget.
  rewrite on_message_unfold. cbv zeta. rewrite Hself, Hbot, Hcontent.
  change (startswith "!" (String "!" input)) with true.
  change (drop_first (String "!" input)) with input.
  cbn [orb]. rewrite call_unfold.
  pose proof (py_split_nonempty space input) as Hn.
  destruct (py_split space input) as [|cmd_name cmd_args]; [contradiction|].
  simpl hd in *. rewrite self_traced, Hget.
  unfold MCLink.traced. now destruct (MCLink.link_DEBUG this).
Qed.

(** *** The built-in command through [call] *)

Lemma help_unfold s (args : list string) (u : User) :
  MCLink.help args u s =
    match MCLink.get_member_permission_level (MCLink.self s) u with
    | Return level =>
        (Return (Some (true,
                       MCLink.help_header ++
                       help_lines
                         (available level
                            (PyDict.values
                               (MCLink._commands (MCLink.self s)))))), s)
    | Raise e => (Raise e, s)
    end.
Proof.
  unfold MCLink.help, MCLink.bind, MCLink.reads, MCLink.gets, MCLink.ret.
  destruct (MCLink.get_member_permission_level _ u); [|reflexivity].
  now rewrite help_loop.
Qed.

Lemma self_debug_logged (input : string) s :
  MCLink.self (MCLink.debug_logged input s) = MCLink.self s.
Proof.
  unfold MCLink.debug_logged. now destruct (MCLink._DEBUG (MCLink.self s)).
Qed.

(** X21.  A command bound to the built-in [help] can be repeated: [call]
    gives the same result the second time, and the first call leaves the
    object, the sent messages and the environment as they were (only the
    debug log line may be added). *)
Theorem help_call_repeatable s (input : string) (u : User)
        (cmd_name : string) (cmd_args : list string) (cmd : Command) :
  py_split space input = cmd_name :: cmd_args ->
  PyDict.get String.eqb cmd_name (MCLink._commands (MCLink.self s))
    = Some cmd ->
  func cmd = BoundHelp ->
  fst (MCLink.call handlers input u (snd (MCLink.call handlers input u s)))
  = fst (MCLink.call handlers input u s)
  /\ MCLink.self (snd (MCLink.call handlers input u s)) = MCLink.self s
  /\ MCLink.sent (snd (MCLink.call handlers input u s)) = MCLink.sent s
  /\ MCLink.env (snd (MCLink.call handlers input u s)) = MCLink.env s.
Proof.
  intros Hsplit Hget Hfunc.
  assert (Hcall : forall st, MCLink.self st = MCLink.self s ->
            MCLink.call handlers input u st =
            match MCLink.get_member_permission_level (MCLink.self s) u with
            | Raise e => (Raise e, st)
            | Return level =>
                if Permission_lt level (permission cmd)
                then (Return (false,
                              "You don't have permission for that command."),
                      st)
                else (Return (true,
                              MCLink.help_header ++
                              help_lines
                                (available level
                                   (PyDict.values
                                      (MCLink._commands (MCLink.self s))))),
                      MCLink.debug_logged input st)
            end).
  { intros st Hst. rewrite call_unfold, Hsplit, Hst, Hget.
    destruct (MCLink.get_member_permission_level _ u) as [level|e] eqn:E;
      [|reflexivity].
    destruct (Permission_lt level (permission cmd)); [reflexivity|].
    rewrite Hfunc. simpl MCLink.apply_func.
    rewrite help_unfold, self_debug_logged, Hst, E. reflexivity. }
  rewrite (Hcall s eq_refl).
  destruct (MCLink.get_member_permission_level _ u) as [level|e];
    [destruct (Permission_lt level (permission cmd))|];
    cbn [fst snd]; rewrite Hcall; auto using self_debug_logged;
    repeat split; auto using self_debug_logged;
    unfold MCLink.debug_logged; now destruct (MCLink._DEBUG (MCLink.self s)).
Qed.

End MoreProperties.

(** ** Joining, then splitting *)

Lemma py_split_token (sep : ascii) (t : string) :
  contains_char sep t = false -> py_split sep t = [t].
Proof.
  induction t as [|c rest IH]; simpl; [reflexivity|].
  intros H. apply orb_false_iff in H. destruct H as [Hc Hrest].
  rewrite Hc, IH by exact Hrest. reflexivity.
Qed.

Lemma py_split_token_sep (sep : ascii) (t rest : string) :
  contains_char sep t = false ->
  py_split sep (t ++ String sep rest) = t :: py_split sep rest.
Proof.
  induction t as [|c t' IH]; simpl.
  - intros _. now rewrite Ascii.eqb_refl.
  - intros H. apply orb_false_iff in H. destruct H as [Hc Hrest].
    rewrite Hc, IH by exact Hrest. reflexivity.
Qed.

Lemma py_split_of_join (sep : ascii) (toks : list string) :
  toks <> [] ->
  Forall (fun tok => contains_char sep tok = false) toks ->
  py_split sep (py_join (String sep EmptyString) toks) = toks.
Proof.
  induction toks as [|t rest IH]; [contradiction|].
  intros _ H. apply Forall_cons_iff in H. destruct H as [Ht Hrest].
  destruct rest as [|u rest].
  - simpl. now apply py_split_token.
  - rewrite py_join_cons.
    change (String sep EmptyString ++ py_join (String sep EmptyString)
                                              (u :: rest))
      with (String sep (py_join (String sep EmptyString) (u :: rest))).
    rewrite py_split_token_sep by exact Ht.
    rewrite IH; [reflexivity | discriminate | exact Hrest].
Qed.

Section Composition.

Variable Socket : Type.
Variable Env : Type.
Variable socket_close : Socket -> Env -> Env.
Variable handlers :
  nat -> list string -> User -> MCLink.M Socket Env (option (bool * string)).
Variable socket_new : Env -> Result Socket * Env.
Variable socket_connect : Socket -> string -> Z -> Env -> Result unit * Env.
Variable mcrcon_login : Socket -> string -> Env -> Result bool * Env.
Variable client_run : string -> MCLink.M Socket Env unit.

Implicit Types (o : MCLink.t Socket) (s : MCLink.State Socket Env).

(** X22.  A command line built by joining a name and arguments with
    single spaces, none of them holding a space, is taken apart again by
    [call]: the command of that name is looked up and its function gets
    exactly those arguments. *)
Theorem call_join_arguments s (u : User) (cmd_name : string)
        (cmd_args : list string) (cmd : Command) (level : Permission) :
  Forall (fun tok => contains_char space tok = false)
         (cmd_name :: cmd_args) ->
  PyDict.get String.eqb cmd_name (MCLink._commands (MCLink.self s))
    = Some cmd ->
  MCLink.get_member_permission_level (MCLink.self s) u = Return level ->
  Permission_lt level (permission cmd) = false ->
  MCLink.call handlers (py_join " " (cmd_name :: cmd_args)) u s =
    match MCLink.apply_func handlers (func cmd) cmd_args u
            (MCLink.debug_logged (py_join " " (cmd_name :: cmd_args)) s) with
    | (Return None, s') => (Return (true, "No response for command"), s')
    | (Return (Some r), s') => (Return r, s')
    | (Raise e, s') => (Raise e, s')
    end.
Proof.
  intros Htok Hget Hlevel Hlt.
  apply call_runs_handler with (cmd_name := cmd_name) (level := level);
    try assumption.
  apply (py_split_of_join space); [discriminate | exact Htok].
Qed.

(** *** connect *)

(** X23.  When the socket cannot connect, or the login exchange raises,
    [connect] prints the failure and the exception, closes the socket it
    created, leaves the bridge disconnected, does not create or start the
    chat client, and raises the same exception. *)
Theorem connect_rcon_failure s (bot_token : string) (guild_id : Z)
        (rcon_host : string) (rcon_port : Z) (rcon_password : string)
        (sock : Socket) (e : PyExc) (e1 e2 : Env) :
  socket_new (MCLink.env s) = (Return sock, e1) ->
  socket_connect sock rcon_host rcon_port e1 = (Raise e, e2)
  \/ (exists e',
         socket_connect sock rcon_host rcon_port e1 = (Return tt, e')
         /\ mcrcon_login sock rcon_password e' = (Raise e, e2)) ->
  is_Exception e = true ->
  MCLink.connect socket_close socket_new socket_connect mcrcon_login
                 client_run bot_token guild_id rcon_host rcon_port
                 rcon_password s
  = (Raise e,
     MCLink.mkState
       (MCLink.set_rcon_socket None
          (MCLink.set_guild_id guild_id (MCLink.self s)))
       (MCLink.stdout s
          ++ ["Failed to connect to the Minecraft RCON server"; exc_str e])
       (MCLink.sent s) (socket_close sock e2)).
Proof.
  intros Hnew Hfail Hexc.
  unfold MCLink.connect, MCLink.bind, MCLink.update, MCLink.on_env,
    MCLink.try_except, MCLink.with_env. cbn [MCLink.env MCLink.self].
  rewrite Hnew. cbn [MCLink.env MCLink.self].
  destruct Hfail as [Hc | (e' & Hc & Hl)]; rewrite Hc;
    cbn [MCLink.env MCLink.self]; rewrite ?Hl, Hexc;
    unfold MCLink.print, MCLink.close, MCLink.raise, MCLink.is_connected;
    cbn; rewrite <- app_assoc; reflexivity.
Qed.

(** X24.  With a wrong password, [connect] prints "Incorrect rcon
    password", then the failure line and the same text again, closes the
    socket once, leaves the bridge disconnected, does not create or start
    the chat client, and raises [ConnectionError]. *)
Theorem connect_wrong_password s (bot_token : string) (guild_id : Z)
        (rcon_host : string) (rcon_port : Z) (rcon_password : string)
        (sock : Socket) (e1 e2 e3 : Env) :
  socket_new (MCLink.env s) = (Return sock, e1) ->
  socket_connect sock rcon_host rcon_port e1 = (Return tt, e2) ->
  mcrcon_login sock rcon_password e2 = (Return false, e3) ->
  MCLink.connect socket_close socket_new socket_connect mcrcon_login
                 client_run bot_token guild_id rcon_host rcon_port
                 rcon_password s
  = (Raise MCLink.incorrect_password,
     MCLink.mkState
       (MCLink.set_rcon_socket None
          (MCLink.set_guild_id guild_id (MCLink.self s)))
       (MCLink.stdout s
          ++ ["Incorrect rcon password";
              "Failed to connect to the Minecraft RCON server";
              "Incorrect rcon password"])
       (MCLink.sent s) (socket_close sock e3)).
Proof.
  intros Hnew Hc Hl.
  unfold MCLink.connect, MCLink.bind, MCLink.update, MCLink.on_env,
    MCLink.try_except, MCLink.with_env. cbn [MCLink.env MCLink.self].
  rewrite Hnew. cbn [MCLink.env MCLink.self].
  rewrite Hc. cbn [MCLink.env MCLink.self]. rewrite Hl.
  unfold MCLink.print, MCLink.close, MCLink.raise, MCLink.is_connected.
  cbn. rewrite <- !app_assoc. reflexivity.
Qed.


End Composition.

(** * Concrete runs *)

Import Fixture.

(** C1.  Role 5 is registered as [Admin] and alice holds role 5, so the
    highest level mapped to her roles is [Admin]; the resolver returns
    [Default], because it tests the [Role] object, not its id, for
    membership in a registry keyed by id. *)
Theorem registered_role_level_ignored :
  PyDict.get PyKey_eqb (KInt 5) (MCLink._role_permissions link) = Some Admin
  /\ In (mkMember (user_id alice) [mkRole 5]) (members roster)
  /\ spec_resolve (MCLink._role_permissions link) [mkRole 5] = Admin
  /\ PyDict.contains PyKey_eqb (KRole (mkRole 5))
                     (MCLink._role_permissions link) = false
  /\ MCLink.get_member_permission_level link alice = Return Default.
Proof.
  repeat split; try reflexivity. simpl. now left.
Qed.

(** Keying the registry by the [Role] object does not help: the membership
    test succeeds and the subscript by [role.id] raises [KeyError]. *)
Example role_keyed_registry_raises :
  MCLink.get_member_permission_level role_keyed alice
  = Raise (mkExc KeyError "5").
Proof. reflexivity. Qed.

Lemma call_unknown_command_witness :
  PyDict.get String.eqb (hd EmptyString (py_split space "frobnicate"))
             (MCLink._commands (MCLink.self st0)) = None
  /\ MCLink.call handlers "frobnicate" alice st0
     = (Return (false, "Error: Unknown command 'frobnicate'"), st0)
  /\ MCLink.call handlers "" alice st0
     = (Return (false, "Error: Unknown command ''"), st0).
Proof.
  split; [reflexivity|].
  split; apply (call_unknown_command Socket Env handlers); reflexivity.
Defined.

(** C3 fails as stated: the message starts with ["Error: "]. *)
Lemma call_unknown_command_counterexample :
  PyDict.get String.eqb "frobnicate" (MCLink._commands (MCLink.self st0))
    = None
  /\ fst (MCLink.call handlers "frobnicate" alice st0)
     <> Return (false, "Unknown command 'frobnicate'").
Proof.
  split; [reflexivity|]. vm_compute. discriminate.
Qed.

Lemma call_permission_denied_witness :
  value Default < value (permission stop_cmd)
  /\ MCLink.call handlers "stop now" alice st0
     = (Return (false, "You don't have permission for that command."), st0)
  /\ MCLink.env (snd (MCLink.call handlers "stop now" alice st0)) = O.
Proof.
  assert (H : MCLink.call handlers "stop now" alice st0
              = (Return (false, "You don't have permission for that command."),
                 st0)).
  { apply (call_permission_denied Socket Env handlers st0 "stop now" alice
             "stop" ["now"] stop_cmd Default); reflexivity. }
  split; [reflexivity|]. split; [exact H|]. now rewrite H.
Defined.

Lemma execute_not_connected_witness :
  MCLink.is_connected (MCLink.self st0) = false
  /\ MCLink.execute mcrcon_command "list" st0
     = (Return "RCON is not connected", st0).
Proof.
  split; [reflexivity|].
  apply (execute_not_connected Socket Env mcrcon_command st0 "list").
  reflexivity.
Defined.

Lemma help_lists_available_witness :
  MCLink.help [] alice st0 =
    (Return
       (Some (true,
              "Hello! I am a Discord -> Minecraft: Java Edition server link!"
                ++ String "010" "Here are the commands available to you:"
                ++ String "010" (String "010" "* `help` - Show this help menu")
                ++ String "010" "* `boom` - Fail"
                ++ String "010" "* `echo` - Repeat"
                ++ String "010" "* `save` - Save the world"
                ++ String "010" EmptyString)),
     st0).
Proof.
  destruct (help_lists_available Socket Env st0 [] alice Default eq_refl)
    as (message & Hhelp & Hmessage & _).
  rewrite Hhelp, Hmessage. reflexivity.
Defined.



Lemma call_splits_on_space_witness :
  MCLink.call handlers "echo a  b" alice st0
    = (Return (true, "a,,b"), ran st0)
  /\ py_split space "echo a  b" = ["echo"; "a"; ""; "b"].
Proof.
  destruct (call_splits_on_space Socket Env handlers st0 "echo a  b" alice)
    as (cmd_name & cmd_args & Hsplit & _ & _ & _ & Hrun).
  vm_compute in Hsplit. injection Hsplit as <- <-.
  split; [|reflexivity].
  rewrite (Hrun echo_cmd Default eq_refl eq_refl eq_refl). reflexivity.
Defined.

(** C7 fails as stated: in ["help<TAB>me"] the first whitespace-separated
    token is ["help"], a registered command, but [call] takes the whole
    text as the command name. *)
Lemma call_splits_on_space_counterexample :
  spec_split_whitespace ("help" ++ tab ++ "me") = ["help"; "me"]
  /\ PyDict.get String.eqb "help" (MCLink._commands (MCLink.self st0))
     = Some help_cmd
  /\ py_split space ("help" ++ tab ++ "me") = ["help" ++ tab ++ "me"]
  /\ MCLink.call handlers ("help" ++ tab ++ "me") alice st0
     = (Return (false, "Error: Unknown command 'help" ++ tab ++ "me'"), st0)
  /\ py_split space ("help" ++ tab ++ "me")
     <> spec_split_whitespace ("help" ++ tab ++ "me").
Proof.
  repeat split; try reflexivity. vm_compute. discriminate.
Qed.

Lemma register_admin_appends_witness :
  MCLink._bot_admins (MCLink.register_admin 7 (MCLink.register_admin 7 link))
  = [7; 7].
Proof.
  apply (proj1 (proj2 (register_admin_appends Socket link 7))).
Defined.

(** C8 fails as stated: registering id 7 twice does not leave the object
    as registering it once does. *)
Lemma register_admin_counterexample :
  MCLink.register_admin 7 (MCLink.register_admin 7 link)
  <> MCLink.register_admin 7 link.
Proof.
  intros H. apply (f_equal MCLink._bot_admins) in H.
  vm_compute in H. discriminate H.
Qed.

Lemma call_normalizes_response_witness :
  MCLink.call handlers "save" alice st0
    = (Return (true, "No response for command"), ran st0)
  /\ MCLink.call handlers "echo hi" alice st0
     = (Return (true, "hi"), ran st0).
Proof.
  split.
  - apply (proj1 (call_normalizes_response Socket Env handlers st0 "save"
                    alice "save" [] save_cmd Default None (ran st0)
                    eq_refl eq_refl eq_refl eq_refl eq_refl)).
    reflexivity.
  - apply (proj2 (call_normalizes_response Socket Env handlers st0 "echo hi"
                    alice "echo" ["hi"] echo_cmd Default
                    (Some (true, "hi")) (ran st0)
                    eq_refl eq_refl eq_refl eq_refl eq_refl)).
    reflexivity.
Defined.

Lemma close_idempotent_witness :
  MCLink.is_connected (MCLink.self st0) = false
  /\ MCLink.close socket_close st0 = (Return tt, st0)
  /\ MCLink.is_connected (MCLink.self st1) = true
  /\ MCLink.is_connected
       (MCLink.self (snd (MCLink.close socket_close st1))) = false.
Proof.
  split; [reflexivity|]. split.
  - apply (proj2 (proj2 (proj2 (close_idempotent Socket Env socket_close
                                  st0)))).
    reflexivity.
  - split; [reflexivity|].
    apply (proj1 (proj2 (close_idempotent Socket Env socket_close st1))).
Defined.

(** ** Runs of the further properties *)

Lemma Permission_order_witness :
  Permission_lt Default Admin = true
  /\ Permission_le Moderator Owner = negb (Permission_lt Owner Moderator).
Proof.
  split.
  - apply (proj1 (proj2 Permission_order) Default Moderator Admin);
      reflexivity.
  - apply (proj1 (proj2 (proj2 (proj2 Permission_order)))).
Defined.

Lemma resolver_unknown_member_witness :
  MCLink.get_member_permission_level link carol = Return Default.
Proof.
  apply (resolver_unknown_member Socket link carol client roster);
    try reflexivity.
  intros m [<-|[<-|[]]]; discriminate.
Defined.

Lemma call_without_roster_witness :
  MCLink.call handlers "help me" alice fresh
    = (Raise (MCLink.no_attribute "get_guild"), fresh)
  /\ MCLink.call handlers "help" alice
       (MCLink.mkState (MCLink.set_guild_id 2 link) [] [] O)
     = (Raise (MCLink.no_attribute "members"),
        MCLink.mkState (MCLink.set_guild_id 2 link) [] [] O).
Proof.
  split.
  - apply (proj1 (call_without_roster Socket Env handlers fresh "help me"
                    alice "help" ["me"] help_cmd eq_refl eq_refl)).
    reflexivity.
  - apply (proj2 (call_without_roster Socket Env handlers
                    (MCLink.mkState (MCLink.set_guild_id 2 link) [] [] O)
                    "help" alice "help" [] help_cmd eq_refl eq_refl)
             client); reflexivity.
Defined.

Lemma role_registry_int_keyed_witness :
  int_keyed
    (MCLink._role_permissions
       (MCLink.register_role 5 Admin
          (MCLink.register_admin 10 (MCLink.init Socket)))).
Proof.
  destruct (role_registry_int_keyed Socket) as (Hinit & Hrole & _ & Hadmin).
  apply Hrole, Hadmin, Hinit.
Defined.

Lemma elevated_commands_unreachable_witness :
  MCLink.call handlers "stop" alice st0
    = (Return (false, "You don't have permission for that command."), st0)
  \/ (exists e,
         MCLink.get_member_permission_level (MCLink.self st0) alice = Raise e
         /\ MCLink.call handlers "stop" alice st0 = (Raise e, st0)).
Proof.
  apply (elevated_commands_unreachable Socket Env handlers st0 "stop" alice
           "stop" [] stop_cmd); try reflexivity.
  repeat constructor. now exists 5.
Defined.

Lemma help_lists_what_call_allows_witness :
  MCLink.call handlers "echo hi" alice st0 = (Return (true, "hi"), ran st0)
  /\ MCLink.call handlers "stop" alice st0
     = (Return (false, "You don't have permission for that command."), st0).
Proof.
  split.
  - destruct (help_lists_what_call_allows Socket Env handlers st0 alice
                Default [] "echo" echo_cmd eq_refl eq_refl)
      as (listed & _ & Hiff & Hrun & _).
    apply (Hrun (proj2 (Hiff echo_cmd)
                   ltac:(vm_compute; intuition discriminate))
                "echo hi" ["hi"] eq_refl).
  - destruct (help_lists_what_call_allows Socket Env handlers st0 alice
                Default [] "stop" stop_cmd eq_refl eq_refl)
      as (listed & _ & Hiff & _ & Hrefuse).
    apply (Hrefuse (fun Hin => ltac:(apply Hiff in Hin; destruct Hin as [_ Hle];
                                     vm_compute in Hle; now apply Hle))
                   "stop" [] eq_refl).
Defined.

Lemma default_command_never_refused_witness :
  MCLink.call handlers "save" bob st0
  = (Return (true, "No response for command"), ran st0).
Proof.
  apply (default_command_never_refused Socket Env handlers st0 "save" bob
           Default "save" [] save_cmd); reflexivity.
Defined.

Lemma register_command_lookup_witness :
  PyDict.get String.eqb "help"
    (MCLink._commands
       (MCLink.register_command "echo" Owner (Handler 1) "" link))
  = Some help_cmd.
Proof.
  rewrite (proj2 (register_command_lookup Socket link "echo" Owner
                    (Handler 1) "") "help"); [reflexivity | discriminate].
Defined.

Lemma register_command_then_call_witness :
  MCLink.call handlers "stop now" alice
    (with_object
       (MCLink.register_command "stop" Default (Handler 2) "" link) st0)
  = (Return (true, "now"),
     ran (with_object
            (MCLink.register_command "stop" Default (Handler 2) "" link)
            st0)).
Proof.
  apply (register_command_then_call Socket Env handlers st0 "stop now" alice
           "stop" ["now"] Default Default (Handler 2) "");
    [reflexivity | reflexivity | vm_compute; discriminate].
Defined.

Lemma registry_wf_invariant_witness :
  registry_wf
    (MCLink._commands
       (MCLink.register_command "help" Owner (Handler 0) ""
          (MCLink.init Socket))).
Proof.
  destruct (registry_wf_invariant Socket) as [Hinit Hstep].
  apply Hstep, Hinit.
Defined.

Lemma help_lists_each_name_once_witness :
  exists listed : list Command,
    MCLink.help [] alice st0
      = (Return (Some (true, greeting ++ listing listed)), st0)
    /\ NoDup (map name listed)
    /\ In save_cmd listed.
Proof.
  assert (Hwf : registry_wf (MCLink._commands (MCLink.self st0))).
  { split.
    - repeat constructor; simpl; intuition discriminate.
    - repeat constructor. }
  destruct (help_lists_each_name_once Socket Env st0 [] alice Default
              Hwf eq_refl)
    as (listed & Hhelp & Hnd & Hiff).
  exists listed. split; [exact Hhelp|]. split; [exact Hnd|].
  apply Hiff. split; [|vm_compute; discriminate].
  simpl. tauto.
Defined.

Lemma register_role_upsert_witness :
  PyDict.get PyKey_eqb (KInt 5)
    (MCLink._role_permissions (MCLink.register_role 6 Owner link))
  = Some Admin.
Proof.
  rewrite (proj2 (proj2 (register_role_upsert Socket link 6 Owner Owner)) 5);
    [reflexivity | discriminate].
Defined.

Lemma on_message_ignores_witness :
  MCLink.on_message handlers client (MCLink.mkMessage bot "!stop" 3) st0
    = (Return tt, st0)
  /\ MCLink.on_message handlers client (MCLink.mkMessage alice "stop" 3) st0
     = (Return tt, st0).
Proof.
  split.
  - apply (on_message_ignores Socket Env handlers st0 client
             (MCLink.mkMessage bot "!stop" 3)).
    left. reflexivity.
  - apply (on_message_ignores Socket Env handlers st0 client
             (MCLink.mkMessage alice "stop" 3)).
    right. right. reflexivity.
Defined.

Lemma on_message_relays_witness :
  MCLink.on_message handlers client (MCLink.mkMessage alice "!echo hi" 3) st0
    = (Return tt, MCLink.mkState link [] [(3, "hi")] 1%nat)
  /\ MCLink.on_message handlers client (MCLink.mkMessage alice "!stop" 3) st0
     = (Return tt,
        MCLink.mkState link []
          [(3, "[FAIL] You don't have permission for that command.")] O).
Proof.
  split.
  - apply (on_message_relays Socket Env handlers st0 client
             (MCLink.mkMessage alice "!echo hi" 3) "echo hi" true "hi"
             (ran st0)); reflexivity.
  - apply (on_message_relays Socket Env handlers st0 client
             (MCLink.mkMessage alice "!stop" 3) "stop" false
             "You don't have permission for that command." st0);
      reflexivity.
Defined.

Lemma on_message_unknown_command_witness :
  MCLink.on_message handlers client (MCLink.mkMessage alice "!" 3) st0
  = (Return tt,
     MCLink.mkState link [] [(3, "[FAIL] Error: Unknown command ''")] O).
Proof.
  apply (on_message_unknown_command Socket Env handlers st0 client
           (MCLink.mkMessage alice "!" 3) ""); reflexivity.
Defined.

Lemma help_call_repeatable_witness :
  fst (MCLink.call handlers "help"
         alice (snd (MCLink.call handlers "help" alice st0)))
  = fst (MCLink.call handlers "help" alice st0).
Proof.
  apply (proj1 (help_call_repeatable Socket Env handlers st0 "help" alice
                  "help" [] help_cmd eq_refl eq_refl eq_refl)).
Defined.

Lemma call_join_arguments_witness :
  MCLink.call handlers "echo a b" alice st0
  = (Return (true, "a,b"), ran st0).
Proof.
  apply (call_join_arguments Socket Env handlers st0 alice "echo" ["a"; "b"]
           echo_cmd Default); try reflexivity.
  repeat constructor.
Defined.

Lemma connect_rcon_failure_witness :
  MCLink.connect socket_close socket_new socket_connect mcrcon_login
                 client_run "token" 1 "example.org" 25575 "hunter2" fresh
  = (Raise refused,
     MCLink.mkState
       (MCLink.set_rcon_socket None
          (MCLink.set_guild_id 1 (MCLink.init Socket)))
       ["Failed to connect to the Minecraft RCON server";
        "[Errno 111] Connection refused"] [] O).
Proof.
  apply (connect_rcon_failure Socket Env socket_close socket_new
           socket_connect mcrcon_login client_run fresh "token" 1
           "example.org" 25575 "hunter2" 7%nat refused O O);
    [reflexivity | left; reflexivity | reflexivity].
Defined.

Lemma connect_wrong_password_witness :
  MCLink.connect socket_close socket_new socket_connect mcrcon_login
                 client_run "token" 1 "localhost" 25575 "letmein" fresh
  = (Raise MCLink.incorrect_password,
     MCLink.mkState
       (MCLink.set_rcon_socket None
          (MCLink.set_guild_id 1 (MCLink.init Socket)))
       ["Incorrect rcon password";
        "Failed to connect to the Minecraft RCON server";
        "Incorrect rcon password"] [] O).
Proof.
  apply (connect_wrong_password Socket Env socket_close socket_new
           socket_connect mcrcon_login client_run fresh "token" 1
           "localhost" 25575 "letmein" 7%nat O O O); reflexivity.
Defined.

